(** * weather_floor_lamp.py: rain forecast to SwitchBot floor lamp colour

    A shallow embedding of [weather_floor_lamp.py].  Python integers are [Z],
    Python floats are IEEE 754 binary64 values ([spec_float] at precision 53),
    a Python [str] is a [string] read as a sequence of code points below 256,
    decoded JSON is an inductive type, and the effects of the script (clock,
    random UUIDs, HTTP exchanges, logging, exceptions) are threaded through a
    state-and-exception monad over an explicit environment. *)

From Stdlib Require Import ZArith List String Ascii Bool Lia.
From Stdlib Require Import SpecFloat DecimalString.
From Stdlib Require DecimalPos.
Import ListNotations.

Local Open Scope Z_scope.

(** ** Exceptions and results *)

(** The exception classes the script can meet.  [ConnectionError] stands for
    every transport-level failure of [requests] (connection error, timeout,
    ...); [HTTPError] is what [raise_for_status] raises; [JSONDecodeError] is
    [requests.exceptions.JSONDecodeError], raised by [Response.json]. *)
Inductive exn : Type :=
| TypeError
| ValueError
| OverflowError
| KeyError
| IndexError
| AttributeError
| ConnectionError
| HTTPError
| JSONDecodeError.

(** [except requests.exceptions.RequestException]: the three classes of
    [requests] derive from it ([JSONDecodeError] since requests 2.27). *)
Definition is_RequestException (e : exn) : bool :=
  match e with
  | ConnectionError | HTTPError | JSONDecodeError => true
  | _ => false
  end.

Inductive result (A : Type) : Type :=
| Ok (a : A)
| Raise (e : exn).

Arguments Ok {A} a.
Arguments Raise {A} e.

(** ** Python numbers *)

(** [max(lo, min(hi, v))] on integers. *)
Definition clamp (lo hi v : Z) : Z := Z.max lo (Z.min hi v).

(** [str(n)] for an integer. *)
Definition str_of_int (n : Z) : string := NilZero.string_of_int (Z.to_int n).

Module Float64.

Definition prec : Z := 53.
Definition emax : Z := 1024.

Definition float : Type := spec_float.

(** Conversion of an integer operand in mixed arithmetic (exact below 2^53). *)
Definition of_int (z : Z) : float := binary_normalize prec emax z 0 false.

Definition add : float -> float -> float := SFadd prec emax.
Definition mul : float -> float -> float := SFmul prec emax.
Definition div : float -> float -> float := SFdiv prec emax.

(** [int(x)]: truncation toward zero; infinities and NaN raise. *)
Definition to_int (x : float) : result Z :=
  match x with
  | S754_zero _ => Ok 0
  | S754_infinity _ => Raise OverflowError
  | S754_nan => Raise ValueError
  | S754_finite s m e =>
      Ok (cond_Zopp s (if 0 <=? e then Zpos m * 2 ^ e else Zpos m / 2 ^ (- e)))
  end.

End Float64.

(** ** Mapping: rain % -> RGB or CT *)

Definition map_rain_to_rgb (rain : Z) : Z * Z * Z :=
  if rain =? 0 then (255, 127, 0)
  else if rain <=? 20 then (255, 255, 0)
  else if rain <=? 40 then (127, 255, 0)
  else if rain <=? 60 then (0, 255, 255)
  else if rain <=? 80 then (0, 127, 255)
  else (0, 0, 255).

Definition map_rain_to_ct (rain : Z) : result Z :=
  let rain := Z.max 0 (Z.min 100 rain) in
  let ct_min := 2700 in
  let ct_max := 6500 in
  Float64.to_int
    (Float64.add (Float64.of_int ct_min)
       (Float64.mul (Float64.of_int (ct_max - ct_min))
          (Float64.div (Float64.of_int rain) (Float64.of_int 100)))).

(** ** Text and bytes *)

(** A byte is an integer in 0..255; a byte string is a list of them. *)
Definition bytes : Type := list Z.

(** [ord(c)] for a character of a [str]. *)
Definition ord (c : ascii) : Z := Z.of_N (N_of_ascii c).

(** [chr(n)] for [0 <= n < 256]. *)
Definition chr (n : Z) : ascii := ascii_of_N (Z.to_N n).

(** [s.encode("utf-8")]: one byte below U+0080, two bytes from U+0080 to
    U+00FF. *)
Fixpoint encode_utf8 (s : string) : bytes :=
  match s with
  | EmptyString => []
  | String c rest =>
      let n := ord c in
      if n <? 128 then n :: encode_utf8 rest
      else (192 + Z.shiftr n 6) :: (128 + Z.land n 63) :: encode_utf8 rest
  end.

(** [\d] on the code points below 256: the ten ASCII digits. *)
Definition is_digit (c : ascii) : bool := (48 <=? ord c) && (ord c <=? 57).

(** [re.sub(r"\D", "", s)]: delete every character that is not a digit. *)
Fixpoint remove_non_digits (s : string) : string :=
  match s with
  | EmptyString => EmptyString
  | String c rest =>
      if is_digit c then String c (remove_non_digits rest)
      else remove_non_digits rest
  end.

(** [int(s)] for a string of decimal digits (most significant first).  The
    interpreter's configurable cap on the number of digits it converts
    ([sys.set_int_max_str_digits]) is left out: integers are unbounded. *)
Fixpoint int_of_digits_from (acc : Z) (s : string) : Z :=
  match s with
  | EmptyString => acc
  | String c rest => int_of_digits_from (10 * acc + (ord c - 48)) rest
  end.

Definition int_of_digits (s : string) : Z := int_of_digits_from 0 s.

(** ** hashlib.sha256, hmac and base64 (FIPS 180-4, RFC 2104, RFC 4648) *)

Module SHA256.

Definition wrap (x : Z) : Z := x mod 2 ^ 32.
Definition add32 (x y : Z) : Z := wrap (x + y).
Definition rotr (n x : Z) : Z :=
  Z.lor (Z.shiftr x n) (wrap (Z.shiftl x (32 - n))).
Definition shr (n x : Z) : Z := Z.shiftr x n.
Definition not32 (x : Z) : Z := Z.lxor x (2 ^ 32 - 1).

Definition Ch (x y z : Z) : Z := Z.lxor (Z.land x y) (Z.land (not32 x) z).
Definition Maj (x y z : Z) : Z :=
  Z.lxor (Z.lxor (Z.land x y) (Z.land x z)) (Z.land y z).
Definition Sigma0 (x : Z) : Z :=
  Z.lxor (Z.lxor (rotr 2 x) (rotr 13 x)) (rotr 22 x).
Definition Sigma1 (x : Z) : Z :=
  Z.lxor (Z.lxor (rotr 6 x) (rotr 11 x)) (rotr 25 x).
Definition sigma0 (x : Z) : Z :=
  Z.lxor (Z.lxor (rotr 7 x) (rotr 18 x)) (shr 3 x).
Definition sigma1 (x : Z) : Z :=
  Z.lxor (Z.lxor (rotr 17 x) (rotr 19 x)) (shr 10 x).

(** The first 64 primes. *)
Definition is_prime (n : Z) : bool :=
  forallb (fun d => negb (n mod Z.of_nat d =? 0)) (seq 2 (Z.to_nat n - 2)).

Definition primes : list Z :=
  Eval vm_compute in filter is_prime (map Z.of_nat (seq 2 310)).

(** Integer cube root, one bit at a time from bit 40 down. *)
Definition cube_root (n : Z) : Z :=
  fold_left
    (fun r k => let c := r + 2 ^ Z.of_nat k in if c * c * c <=? n then c else r)
    (rev (seq 0 41)) 0.

(** The round constants: the first 32 bits of the fractional parts of the
    cube roots of the first 64 primes. *)
Definition K : list Z :=
  Eval vm_compute in map (fun p => wrap (cube_root (p * 2 ^ 96))) primes.

(** The eight working variables, also the hash value between blocks. *)
Record regs : Type := Regs
  { ra : Z; rb : Z; rc : Z; rd : Z; re : Z; rf : Z; rg : Z; rh : Z }.

(** The initial hash value: the first 32 bits of the fractional parts of
    the square roots of the first 8 primes. *)
Definition frac_sqrt (p : Z) : Z := wrap (Z.sqrt (p * 2 ^ 64)).

Definition H0 : regs :=
  Eval vm_compute in
    Regs (frac_sqrt 2) (frac_sqrt 3) (frac_sqrt 5) (frac_sqrt 7)
         (frac_sqrt 11) (frac_sqrt 13) (frac_sqrt 17) (frac_sqrt 19).

(** Big-endian words of a byte string whose length is a multiple of four. *)
Fixpoint words_of_bytes (l : bytes) : list Z :=
  match l with
  | b0 :: b1 :: b2 :: b3 :: rest =>
      (((b0 * 256 + b1) * 256 + b2) * 256 + b3) :: words_of_bytes rest
  | _ => []
  end.

Definition bytes_of_word (w : Z) : bytes :=
  [ Z.shiftr w 24 mod 256; Z.shiftr w 16 mod 256; Z.shiftr w 8 mod 256;
    w mod 256 ].

(** The message schedule, kept newest word first: [extend n ws] adds [n]
    words to the words already in [ws]. *)
Fixpoint extend (n : nat) (ws : list Z) : list Z :=
  match n with
  | O => ws
  | S n' =>
      let w :=
        add32 (add32 (sigma1 (nth 1 ws 0)) (nth 6 ws 0))
              (add32 (sigma0 (nth 14 ws 0)) (nth 15 ws 0)) in
      extend n' (w :: ws)
  end.

Definition schedule (block : list Z) : list Z :=
  rev (extend 48 (rev block)).

Definition round (r : regs) (kw : Z * Z) : regs :=
  let (k, w) := kw in
  let t1 :=
    add32 (add32 (add32 (rh r) (Sigma1 (re r))) (Ch (re r) (rf r) (rg r)))
          (add32 k w) in
  let t2 := add32 (Sigma0 (ra r)) (Maj (ra r) (rb r) (rc r)) in
  Regs (add32 t1 t2) (ra r) (rb r) (rc r) (add32 (rd r) t1) (re r) (rf r) (rg r).

Definition compress (h : regs) (block : list Z) : regs :=
  let r := fold_left round (combine K (schedule block)) h in
  Regs (add32 (ra h) (ra r)) (add32 (rb h) (rb r)) (add32 (rc h) (rc r))
       (add32 (rd h) (rd r)) (add32 (re h) (re r)) (add32 (rf h) (rf r))
       (add32 (rg h) (rg r)) (add32 (rh h) (rh r)).

(** Padding: a one bit, zeros up to 56 modulo 64, the bit length on 8 bytes. *)
Definition pad (msg : bytes) : bytes :=
  let len := Z.of_nat (List.length msg) in
  let zeros := Z.to_nat ((55 - len) mod 64) in
  msg ++ [128] ++ repeat 0 zeros
      ++ bytes_of_word (Z.shiftr (8 * len) 32 mod 2 ^ 32)
      ++ bytes_of_word ((8 * len) mod 2 ^ 32).

(** The sixteen-word blocks of a list of words. *)
Fixpoint blocks (fuel : nat) (ws : list Z) : list (list Z) :=
  match fuel, ws with
  | S fuel', _ :: _ => firstn 16 ws :: blocks fuel' (skipn 16 ws)
  | _, _ => []
  end.

Definition digest (msg : bytes) : bytes :=
  let ws := words_of_bytes (pad msg) in
  let h := fold_left compress (blocks (List.length ws) ws) H0 in
  bytes_of_word (ra h) ++ bytes_of_word (rb h) ++ bytes_of_word (rc h)
    ++ bytes_of_word (rd h) ++ bytes_of_word (re h) ++ bytes_of_word (rf h)
    ++ bytes_of_word (rg h) ++ bytes_of_word (rh h).

End SHA256.

(** [hmac.new(key, msg=msg, digestmod=hashlib.sha256).digest()] *)
Definition hmac_sha256 (key msg : bytes) : bytes :=
  let key := if (64 <? Z.of_nat (List.length key)) then SHA256.digest key else key in
  let key := key ++ repeat 0 (64 - List.length key) in
  let ipad := map (Z.lxor 0x36) key in
  let opad := map (Z.lxor 0x5c) key in
  SHA256.digest (opad ++ SHA256.digest (ipad ++ msg)).

Definition b64_alphabet : string :=
  "ABCDEFGHIJKLMNOPQRSTUVWXYZabcdefghijklmnopqrstuvwxyz0123456789+/"%string.

Definition b64_char (n : Z) : ascii :=
  match String.get (Z.to_nat n) b64_alphabet with
  | Some c => c
  | None => "="%char
  end.

(** [base64.b64encode(b).decode("utf-8")]: the alphabet is ASCII, so the
    decoded text has one character per output byte. *)
Fixpoint b64encode (l : bytes) : string :=
  match l with
  | [] => EmptyString
  | [a] =>
      String (b64_char (Z.shiftr a 2))
        (String (b64_char (Z.land (Z.shiftl a 4) 63)) "=="%string)
  | [a; b] =>
      String (b64_char (Z.shiftr a 2))
        (String (b64_char (Z.land (Z.lor (Z.shiftl a 4) (Z.shiftr b 4)) 63))
           (String (b64_char (Z.land (Z.shiftl b 2) 63)) "="%string))
  | a :: b :: c :: rest =>
      String (b64_char (Z.shiftr a 2))
        (String (b64_char (Z.land (Z.lor (Z.shiftl a 4) (Z.shiftr b 4)) 63))
           (String (b64_char (Z.land (Z.lor (Z.shiftl b 2) (Z.shiftr c 6)) 63))
              (String (b64_char (Z.land c 63)) (b64encode rest))))
  end.

(** Lower-case hexadecimal rendering of a byte string ([bytes.hex()]). *)
Definition hex_digit (n : Z) : ascii :=
  match String.get (Z.to_nat n) "0123456789abcdef"%string with
  | Some c => c
  | None => "?"%char
  end.

Definition hex (l : bytes) : string :=
  fold_right
    (fun b acc => String (hex_digit (b / 16)) (String (hex_digit (b mod 16)) acc))
    EmptyString l.

Local Open Scope string_scope.
Local Open Scope Z_scope.

(** ** Decoded JSON *)

(** What [Response.json()] returns: [None], [bool], [int], [float], [str],
    [list] and [dict] values.  A [dict] is given by its items; the first
    binding of a key is the one the dict holds. *)
#[warnings="-register-all"]
Inductive json : Type :=
| JNull
| JBool (b : bool)
| JInt (n : Z)
| JFloat (x : Float64.float)
| JStr (s : string)
| JList (l : list json)
| JDict (d : list (string * json)).

Fixpoint lookup {A : Type} (k : string) (d : list (string * A)) : option A :=
  match d with
  | [] => None
  | (k', v) :: rest => if String.eqb k k' then Some v else lookup k rest
  end.

(** Truth value of a decoded JSON value, as [or] tests it. *)
Definition truthy (v : json) : bool :=
  match v with
  | JNull => false
  | JBool b => b
  | JInt n => negb (n =? 0)
  | JFloat (S754_zero _) => false
  | JFloat _ => true
  | JStr s => negb (String.eqb s "")
  | JList l => match l with [] => false | _ => true end
  | JDict d => match d with [] => false | _ => true end
  end.

(** [v[k]] for a string key [k]. *)
Definition getitem_key (v : json) (k : string) : result json :=
  match v with
  | JDict d =>
      match lookup k d with
      | Some x => Ok x
      | None => Raise KeyError
      end
  | _ => Raise TypeError
  end.

(** [v[0]]. *)
Definition getitem_0 (v : json) : result json :=
  match v with
  | JList (x :: _) => Ok x
  | JList [] => Raise IndexError
  | JStr (String c _) => Ok (JStr (String c ""))
  | JStr EmptyString => Raise IndexError
  | JDict _ => Raise KeyError
  | _ => Raise TypeError
  end.

(** [v.get(k, default)]: only a [dict] has the method. *)
Definition dict_get (v : json) (k : string) (default : json) : result json :=
  match v with
  | JDict d =>
      match lookup k d with
      | Some x => Ok x
      | None => Ok default
      end
  | _ => Raise AttributeError
  end.

(** [v != 100]. *)
Definition ne_100 (v : json) : bool :=
  match v with
  | JInt n => negb (n =? 100)
  | JFloat x => negb (SFeqb x (Float64.of_int 100))
  | _ => true
  end.

(** [json.dumps] of a string (ASCII output: everything outside space..tilde
    is escaped). *)
Definition dquote : ascii := chr 34.

Definition escape_char (c : ascii) : string :=
  let n := ord c in
  if n =? 34 then String "\" (String dquote "")
  else if n =? 92 then "\\"
  else if n =? 10 then "\n"
  else if n =? 13 then "\r"
  else if n =? 9 then "\t"
  else if n =? 12 then "\f"
  else if n =? 8 then "\b"
  else if (32 <=? n) && (n <=? 126) then String c ""
  else "\u00" ++ String (hex_digit (n / 16)) (String (hex_digit (n mod 16)) "").

Fixpoint escape (s : string) : string :=
  match s with
  | EmptyString => ""
  | String c rest => escape_char c ++ escape rest
  end.

Definition json_dumps_str (s : string) : string :=
  String dquote (escape s ++ String dquote "").

(** [json.dumps] of a [dict] whose keys and values are strings. *)
Fixpoint json_dumps_items (items : list (string * string)) : string :=
  match items with
  | [] => ""
  | [(k, v)] => json_dumps_str k ++ ": " ++ json_dumps_str v
  | (k, v) :: rest =>
      json_dumps_str k ++ ": " ++ json_dumps_str v ++ ", " ++ json_dumps_items rest
  end.

Definition json_dumps (items : list (string * string)) : string :=
  "{" ++ json_dumps_items items ++ "}".

(** ** Values passed where an integer is expected *)

Inductive pyobj : Type :=
| PyInt (n : Z)
| PyFloat (x : Float64.float)
| PyNone.

(** [int(v)] *)
Definition py_int (v : pyobj) : result Z :=
  match v with
  | PyInt n => Ok n
  | PyFloat x => Float64.to_int x
  | PyNone => Raise TypeError
  end.

(** ** The world outside the script *)

Inductive method : Type := GET | POST.

(** The arguments of one [requests.get] or [requests.post] call. *)
Record request : Type := mk_request
  { req_method : method;
    req_url : string;
    req_headers : list (string * string);
    req_data : option string;
    req_timeout : Z }.

(** What the script reads of a response: its status code and what
    [Response.json()] makes of the body ([None] when it is not valid JSON). *)
Record response : Type := mk_response
  { status_code : Z;
    json_body : option json }.

Inductive outcome : Type :=
| NoResponse
| Answered (r : response).

(** The statuses [raise_for_status] turns into an exception: 4xx and 5xx. *)
Definition error_status (r : response) : bool :=
  (400 <=? status_code r) && (status_code r <? 600).

(** The environment of a run: the wall clock in milliseconds at each reading
    (the value of [int(round(time.time() * 1000))]), the string of each
    [uuid.uuid4()] drawn, and the outcome of each HTTP request by its rank in
    the run. *)
Record env : Type := mk_env
  { now_ms : nat -> Z;
    uuid4 : nat -> string;
    server : nat -> request -> outcome }.

(** The settings read from the process environment at import time. *)
Record config : Type := mk_config
  { ACCESS_TOKEN : string;
    SECRET : string;
    DEVICE_ID : string;
    CITY_CODE : string;
    USE_COLOR_TEMPERATURE : bool }.

Definition API_BASE_URL : string := "https://api.switch-bot.com".
Definition WEATHER_URL : string := "https://weather.tsukumijima.net/api/forecast/city".
Definition HTTP_TIMEOUT : Z := 10.

Inductive level : Type := INFO | ERROR.

(** The records handed to the logger, by call site. *)
Inductive message : Type :=
| WeatherApiError (e : exn)
| MaxDaylight (t06_12 t12_18 t18_24 val : Z)
| PostSent (url data : string)
| SwitchBotError (payload : json)
| SwitchBotOK (payload : json)
| SwitchBotRequestError (e : exn)
| RainChanceUsed (rain : Z)
| SetCT (ct brightness : Z)
| SetRGB (rgb : Z * Z * Z) (brightness : Z).

(** What a run has done so far. *)
Record state : Type := mk_state
  { clock_reads : nat;
    uuid_draws : nat;
    exchanges : list (request * outcome);
    log : list (level * message) }.

Definition initial : state := mk_state 0 0 [] [].

(** ** Computations: state passing with exceptions *)

Definition M (A : Type) : Type := state -> result A * state.

Definition ret {A : Type} (a : A) : M A := fun s => (Ok a, s).

Definition raise {A : Type} (e : exn) : M A := fun s => (Raise e, s).

Definition bind {A B : Type} (m : M A) (k : A -> M B) : M B :=
  fun s =>
    match m s with
    | (Ok a, s') => k a s'
    | (Raise e, s') => (Raise e, s')
    end.

Definition lift {A : Type} (r : result A) : M A := fun s => (r, s).

(** The body of a [try] statement: its exception, if any, is handed to the
    [except] clauses as a value. *)
Definition try {A : Type} (m : M A) : M (result A) :=
  fun s => let (r, s') := m s in (Ok r, s').

Notation "x <- m ;; k" := (bind m (fun x => k))
  (at level 61, m at next level, right associativity).
Notation "m ;; k" := (bind m (fun _ => k))
  (at level 61, right associativity).

Definition logger_info (m : message) : M unit :=
  fun s => (Ok tt, mk_state (clock_reads s) (uuid_draws s) (exchanges s)
                            (log s ++ [(INFO, m)])%list).

Definition logger_error (m : message) : M unit :=
  fun s => (Ok tt, mk_state (clock_reads s) (uuid_draws s) (exchanges s)
                            (log s ++ [(ERROR, m)])%list).

Section Script.

Variable E : env.
Variable C : config.

(** [str(int(round(time.time() * 1000)))] reads the clock once. *)
Definition time_ms : M Z :=
  fun s => (Ok (now_ms E (clock_reads s)),
            mk_state (S (clock_reads s)) (uuid_draws s) (exchanges s) (log s)).

(** [str(uuid.uuid4())] *)
Definition fresh_uuid : M string :=
  fun s => (Ok (uuid4 E (uuid_draws s)),
            mk_state (clock_reads s) (S (uuid_draws s)) (exchanges s) (log s)).

(** One HTTP exchange: the request goes out and is recorded with its outcome;
    no response at all is a [requests] transport exception. *)
Definition send (rq : request) : M response :=
  fun s =>
    let o := server E (List.length (exchanges s)) rq in
    let s' := mk_state (clock_reads s) (uuid_draws s)
                       (exchanges s ++ [(rq, o)])%list (log s) in
    match o with
    | NoResponse => (Raise ConnectionError, s')
    | Answered r => (Ok r, s')
    end.

Definition requests_get (url : string) (timeout : Z) : M response :=
  send (mk_request GET url [] None timeout).

Definition requests_post (url data : string) (headers : list (string * string))
    (timeout : Z) : M response :=
  send (mk_request POST url headers (Some data) timeout).

Definition raise_for_status (r : response) : M unit :=
  if error_status r then raise HTTPError else ret tt.

Definition response_json (r : response) : M json :=
  match json_body r with
  | Some j => ret j
  | None => raise JSONDecodeError
  end.

(** *** Weather API helpers *)

Definition _to_int_pct (s : json) : result Z :=
  match (if truthy s then s else JStr "") with
  | JStr t =>
      let digits := remove_non_digits t in
      Ok (if String.eqb digits "" then 0 else int_of_digits digits)
  | _ => Raise TypeError
  end.

Definition get_today_rain_percent_max_all (city_code : string) : M Z :=
  let url := WEATHER_URL ++ "/" ++ city_code in
  attempt <- try (r <- requests_get url HTTP_TIMEOUT ;;
                  raise_for_status r ;;
                  data <- response_json r ;;
                  forecasts <- lift (getitem_key data "forecasts") ;;
                  today <- lift (getitem_0 forecasts) ;;
                  lift (getitem_key today "chanceOfRain")) ;;
  match attempt with
  | Raise e => logger_error (WeatherApiError e) ;; ret 0
  | Ok rain =>
      v1 <- lift (dict_get rain "T06_12" (JStr "")) ;;
      t06_12 <- lift (_to_int_pct v1) ;;
      v2 <- lift (dict_get rain "T12_18" (JStr "")) ;;
      t12_18 <- lift (_to_int_pct v2) ;;
      v3 <- lift (dict_get rain "T18_24" (JStr "")) ;;
      t18_24 <- lift (_to_int_pct v3) ;;
      let val := Z.max (Z.max t06_12 t12_18) t18_24 in
      logger_info (MaxDaylight t06_12 t12_18 t18_24 val) ;;
      ret val
  end.

(** *** SwitchBot authentication and command sending *)

Definition generate_sign (token secret : string) (nonce : option string)
    : M (string * string * string) :=
  nonce <- match nonce with
           | None => fresh_uuid
           | Some n => ret n
           end ;;
  ms <- time_ms ;;
  let t := str_of_int ms in
  let msg := encode_utf8 (token ++ t ++ nonce) in
  let secret_bytes := encode_utf8 secret in
  let sign := b64encode (hmac_sha256 secret_bytes msg) in
  ret (t, sign, nonce).

Definition post_command (device_id command parameter command_type : string)
    : M (option json) :=
  signed <- generate_sign (ACCESS_TOKEN C) (SECRET C) None ;;
  let '(t, sign, nonce) := signed in
  let headers :=
    [ ("Content-Type", "application/json; charset=utf8");
      ("Authorization", ACCESS_TOKEN C);
      ("t", t);
      ("sign", sign);
      ("nonce", nonce) ] in
  let url := API_BASE_URL ++ "/v1.1/devices/" ++ device_id ++ "/commands" in
  let body :=
    [ ("command", command); ("parameter", parameter);
      ("commandType", command_type) ] in
  let data := json_dumps body in
  attempt <- try (logger_info (PostSent url data) ;;
                  r <- requests_post url data headers HTTP_TIMEOUT ;;
                  raise_for_status r ;;
                  payload <- response_json r ;;
                  code <- lift (dict_get payload "statusCode" JNull) ;;
                  (if ne_100 code then logger_error (SwitchBotError payload)
                   else logger_info (SwitchBotOK payload)) ;;
                  ret payload) ;;
  match attempt with
  | Ok payload => ret (Some payload)
  | Raise e =>
      if is_RequestException e
      then logger_error (SwitchBotRequestError e) ;; ret None
      else raise e
  end.

(** *** Floor Lamp control functions *)

Definition clamp_brightness (brightness : pyobj) : Z :=
  let b := match py_int brightness with
           | Ok b => b
           | Raise _ => 100
           end in
  Z.max 1 (Z.min 100 b).

Definition set_lamp_rgb (device_id : string) (color : Z * Z * Z)
    (brightness : pyobj) : M unit :=
  let '(r, g, b) := color in
  let r := Z.max 0 (Z.min 255 r) in
  let g := Z.max 0 (Z.min 255 g) in
  let b := Z.max 0 (Z.min 255 b) in
  let brightness := clamp_brightness brightness in
  post_command device_id "setBrightness" (str_of_int brightness) "command" ;;
  post_command device_id "setColor"
    (str_of_int r ++ ":" ++ str_of_int g ++ ":" ++ str_of_int b) "command" ;;
  post_command device_id "turnOn" "default" "command" ;;
  ret tt.

Definition set_lamp_ct (device_id : string) (color_temperature : Z)
    (brightness : pyobj) : M unit :=
  let ct := Z.max 2700 (Z.min 6500 color_temperature) in
  let brightness := clamp_brightness brightness in
  post_command device_id "setBrightness" (str_of_int brightness) "command" ;;
  post_command device_id "setColorTemperature" (str_of_int ct) "command" ;;
  post_command device_id "turnOn" "default" "command" ;;
  ret tt.

(** *** Main execution *)

Definition main : M bool :=
  rain <- get_today_rain_percent_max_all (CITY_CODE C) ;;
  logger_info (RainChanceUsed rain) ;;
  let brightness := 100 in
  (if USE_COLOR_TEMPERATURE C
   then ct <- lift (map_rain_to_ct rain) ;;
        logger_info (SetCT ct brightness) ;;
        set_lamp_ct (DEVICE_ID C) ct (PyInt brightness)
   else let rgb := map_rain_to_rgb rain in
        logger_info (SetRGB rgb brightness) ;;
        set_lamp_rgb (DEVICE_ID C) rgb (PyInt brightness)) ;;
  ret true.

End Script.

(** ** Settings read at import time *)

(** [c.lower()] for a code point below 256: the ASCII capitals and the
    Latin-1 capitals (all of U+00C0..U+00DE but the multiplication sign). *)
Definition lower_char (c : ascii) : ascii :=
  let n := ord c in
  if ((65 <=? n) && (n <=? 90))
     || ((192 <=? n) && (n <=? 222) && negb (n =? 215))
  then chr (n + 32)
  else c.

(** [s.lower()] *)
Fixpoint lower (s : string) : string :=
  match s with
  | EmptyString => EmptyString
  | String c rest => String (lower_char c) (lower rest)
  end.

(** [os.environ] once [load_dotenv()] has run: the variables by name. *)
Definition environ : Type := list (string * string).

(** [os.environ[name]] *)
Definition environ_getitem (vars : environ) (name : string) : result string :=
  match lookup name vars with
  | Some v => Ok v
  | None => Raise KeyError
  end.

(** [os.getenv(name, default)] *)
Definition getenv (vars : environ) (name default : string) : string :=
  match lookup name vars with
  | Some v => v
  | None => default
  end.

(** The module-level assignments of ACCESS_TOKEN, SECRET, DEVICE_ID,
    CITY_CODE and USE_COLOR_TEMPERATURE, in this order. *)
Definition load_settings (vars : environ) : result config :=
  match environ_getitem vars "SWITCHBOT_ACCESS_TOKEN" with
  | Raise e => Raise e
  | Ok token =>
  match environ_getitem vars "SWITCHBOT_SECRET" with
  | Raise e => Raise e
  | Ok secret =>
  match environ_getitem vars "SWITCHBOT_FLOOR_LAMP_DEVICE_ID" with
  | Raise e => Raise e
  | Ok device_id =>
  match environ_getitem vars "WEATHER_CITY_CODE" with
  | Raise e => Raise e
  | Ok city_code =>
      Ok (mk_config token secret device_id city_code
            (existsb (String.eqb (lower (getenv vars "USE_COLOR_TEMPERATURE" "0")))
                     ["1"; "true"; "t"; "yes"; "y"]))
  end end end end.

(** The file run as a script: the module-level assignments, then [main()]. *)
Definition script (E : env) (vars : environ) : M bool :=
  fun s =>
    match load_settings vars with
    | Raise e => (Raise e, s)
    | Ok C => main E C s
    end.

(** The spellings of USE_COLOR_TEMPERATURE that select the colour
    temperature mode. *)
Definition ct_spellings : list string :=
  [ "1"; "t"; "T"; "y"; "Y";
    "yes"; "yeS"; "yEs"; "yES"; "Yes"; "YeS"; "YEs"; "YES";
    "true"; "truE"; "trUe"; "trUE"; "tRue"; "tRuE"; "tRUe"; "tRUE";
    "True"; "TruE"; "TrUe"; "TrUE"; "TRue"; "TRuE"; "TRUe"; "TRUE" ].

(** The exchanges of a run in which nothing answers. *)
Definition is_answer (x : request * outcome) : bool :=
  match snd x with
  | NoResponse => false
  | Answered _ => true
  end.

Definition is_error_entry (x : level * message) : bool :=
  match fst x with
  | ERROR => true
  | INFO => false
  end.



(** The variables the script cannot start without. *)
Definition required_variables : list string :=
  [ "SWITCHBOT_ACCESS_TOKEN"; "SWITCHBOT_SECRET";
    "SWITCHBOT_FLOOR_LAMP_DEVICE_ID"; "WEATHER_CITY_CODE" ].

Definition is_set (vars : environ) (name : string) : bool :=
  match lookup name vars with
  | Some _ => true
  | None => false
  end.

(** ** Vocabulary of the properties *)

(** The integer percentages 0..100. *)
Definition percentages : list Z := map Z.of_nat (seq 0 101).

Definition rgb_eq_dec (x y : Z * Z * Z) : {x = y} + {x <> y}.
Proof. repeat decide equality. Defined.

(** [map_rain_to_ct] returns 2700 + 38 n at the percentage [n]. *)
Definition ct_exact (n : nat) : bool :=
  match map_rain_to_ct (Z.of_nat n) with
  | Ok ct => ct =? 2700 + 38 * Z.of_nat n
  | Raise _ => false
  end.

(** The request [get_today_rain_percent_max_all] sends. *)
Definition weather_request (city_code : string) : request :=
  mk_request GET (WEATHER_URL ++ "/" ++ city_code) [] None HTTP_TIMEOUT.

(** The request [post_command] sends when the clock reads [ms] milliseconds
    and the UUID drawn is [nonce]. *)
Definition command_request (C : config)
    (device_id command parameter command_type : string)
    (ms : Z) (nonce : string) : request :=
  let t := str_of_int ms in
  mk_request POST
    (API_BASE_URL ++ "/v1.1/devices/" ++ device_id ++ "/commands")
    [ ("Content-Type", "application/json; charset=utf8");
      ("Authorization", ACCESS_TOKEN C);
      ("t", t);
      ("sign",
       b64encode (hmac_sha256 (encode_utf8 (SECRET C))
                              (encode_utf8 (ACCESS_TOKEN C ++ t ++ nonce))));
      ("nonce", nonce) ]
    (Some (json_dumps [ ("command", command); ("parameter", parameter);
                        ("commandType", command_type) ]))
    HTTP_TIMEOUT.

(** [data["forecasts"][0]["chanceOfRain"]] *)
Definition chance_of_rain (data : json) : result json :=
  match getitem_key data "forecasts" with
  | Raise e => Raise e
  | Ok forecasts =>
      match getitem_0 forecasts with
      | Raise e => Raise e
      | Ok today => getitem_key today "chanceOfRain"
      end
  end.

(** The [try] block of [get_today_rain_percent_max_all] as a function of the
    outcome of its request. *)
Definition fetch (o : outcome) : result json :=
  match o with
  | NoResponse => Raise ConnectionError
  | Answered r =>
      if error_status r then Raise HTTPError
      else match json_body r with
           | None => Raise JSONDecodeError
           | Some data => chance_of_rain data
           end
  end.

(** The failures of the fetch step: the GET raises, the status is an error,
    the body is not valid JSON, or it lacks [forecasts[0].chanceOfRain]. *)
Inductive fetch_failure : outcome -> Prop :=
| GetRaises : fetch_failure NoResponse
| ErrorStatus (r : response) :
    error_status r = true -> fetch_failure (Answered r)
| InvalidJson (r : response) :
    json_body r = None -> fetch_failure (Answered r)
| NoChanceOfRain (r : response) (data : json) (e : exn) :
    json_body r = Some data -> chance_of_rain data = Raise e ->
    fetch_failure (Answered r).

(** The three slot percentages read from [rain], in the order of the code. *)
Definition daylight_slots (rain : json) : result (Z * Z * Z) :=
  match dict_get rain "T06_12" (JStr "") with
  | Raise e => Raise e
  | Ok v1 =>
  match _to_int_pct v1 with
  | Raise e => Raise e
  | Ok t06_12 =>
  match dict_get rain "T12_18" (JStr "") with
  | Raise e => Raise e
  | Ok v2 =>
  match _to_int_pct v2 with
  | Raise e => Raise e
  | Ok t12_18 =>
  match dict_get rain "T18_24" (JStr "") with
  | Raise e => Raise e
  | Ok v3 =>
  match _to_int_pct v3 with
  | Raise e => Raise e
  | Ok t18_24 => Ok (t06_12, t12_18, t18_24)
  end end end end end end.

(** The percentage a text such as "40%" states; 0 when it has no digit. *)
Definition pct_of_text (t : string) : Z :=
  let digits := remove_non_digits t in
  if String.eqb digits "" then 0 else int_of_digits digits.

(** The percentage of a slot of [chanceOfRain]: a missing slot counts 0. *)
Definition slot_pct (v : option json) : Z :=
  match v with
  | Some (JStr t) => pct_of_text t
  | _ => 0
  end.


(** A slot as the annotation [Dict[str, str]] has it: absent or a string;
    [null] and the other falsy values pass too, since [s or ""] replaces
    them. *)
Definition slot_is_text (v : option json) : bool :=
  match v with
  | None => true
  | Some (JStr _) => true
  | Some v => negb (truthy v)
  end.

Definition slots_are_text (rain : list (string * json)) : bool :=
  slot_is_text (lookup "T06_12" rain)
  && slot_is_text (lookup "T12_18" rain)
  && slot_is_text (lookup "T18_24" rain).

(** A request carries authentication material when it has an
    [Authorization] or a [sign] header. *)
Definition authenticated (rq : request) : bool :=
  match lookup "Authorization" (req_headers rq), lookup "sign" (req_headers rq) with
  | None, None => false
  | _, _ => true
  end.

(** The HTTP request itself failed: no response, an error status, or a body
    that is not JSON.  These are the [RequestException]s of a POST. *)
Definition request_failed (o : outcome) : bool :=
  match o with
  | NoResponse => true
  | Answered r =>
      error_status r
      || match json_body r with
         | None => true
         | Some _ => false
         end
  end.

(** What [post_command] makes of the outcome of its request. *)
Definition post_result (o : outcome) : result (option json) :=
  match o with
  | NoResponse => Ok None
  | Answered r =>
      if error_status r then Ok None
      else match json_body r with
           | None => Ok None
           | Some (JDict d) => Ok (Some (JDict d))
           | Some _ => Raise AttributeError
           end
  end.

(** What [post_command] logs after sending its request. *)
Definition post_log (o : outcome) : list (level * message) :=
  match o with
  | NoResponse => [(ERROR, SwitchBotRequestError ConnectionError)]
  | Answered r =>
      if error_status r then [(ERROR, SwitchBotRequestError HTTPError)]
      else match json_body r with
           | None => [(ERROR, SwitchBotRequestError JSONDecodeError)]
           | Some (JDict d) =>
               match lookup "statusCode" d with
               | Some code =>
                   if ne_100 code then [(ERROR, SwitchBotError (JDict d))]
                   else [(INFO, SwitchBotOK (JDict d))]
               | None => [(ERROR, SwitchBotError (JDict d))]
               end
           | Some _ => []
           end
  end.

(** The answer lets [post_command] return: it does not raise. *)
Definition well_answered (o : outcome) : bool :=
  match post_result o with
  | Ok _ => true
  | Raise _ => false
  end.

(** The exchange of the command sent [k] commands after the state [s]: its
    request is signed with the clock reading and the UUID of that rank. *)
Definition command_exchange (E : env) (C : config) (device_id : string)
    (s : state) (k : nat) (command parameter : string) : request * outcome :=
  let rq := command_request C device_id command parameter "command"
              (now_ms E (k + clock_reads s)) (uuid4 E (k + uuid_draws s)) in
  (rq, server E (k + List.length (exchanges s)) rq).

Fixpoint command_exchanges_from (E : env) (C : config) (device_id : string)
    (s : state) (k : nat) (commands : list (string * string))
    : list (request * outcome) :=
  match commands with
  | [] => []
  | (command, parameter) :: rest =>
      command_exchange E C device_id s k command parameter
      :: command_exchanges_from E C device_id s (S k) rest
  end.

Definition command_exchanges (E : env) (C : config) (device_id : string)
    (s : state) (commands : list (string * string)) : list (request * outcome) :=
  command_exchanges_from E C device_id s 0 commands.

(** The [r:g:b] parameter of [setColor], each channel clamped. *)
Definition rgb_parameter (color : Z * Z * Z) : string :=
  let '(r, g, b) := color in
  str_of_int (clamp 0 255 r) ++ ":" ++ str_of_int (clamp 0 255 g) ++ ":"
    ++ str_of_int (clamp 0 255 b).

(** The commands of [set_lamp_rgb] and of [set_lamp_ct], with parameters. *)
Definition lamp_rgb_commands (color : Z * Z * Z) (brightness : pyobj)
    : list (string * string) :=
  [ ("setBrightness", str_of_int (clamp_brightness brightness));
    ("setColor", rgb_parameter color);
    ("turnOn", "default") ].

Definition lamp_ct_commands (color_temperature : Z) (brightness : pyobj)
    : list (string * string) :=
  [ ("setBrightness", str_of_int (clamp_brightness brightness));
    ("setColorTemperature", str_of_int (clamp 2700 6500 color_temperature));
    ("turnOn", "default") ].

(** Three commands in a row, as both lamp functions send them. *)
Definition three_commands (E : env) (C : config) (device_id : string)
    (commands : list (string * string)) : M unit :=
  match commands with
  | [(c1, p1); (c2, p2); (c3, p3)] =>
      post_command E C device_id c1 p1 "command" ;;
      post_command E C device_id c2 p2 "command" ;;
      post_command E C device_id c3 p3 "command" ;;
      ret tt
  | _ => ret tt
  end.

(** How many of three commands go out: the sequence stops at the first
    answer that makes [post_command] raise. *)
Definition issued (l : list (request * outcome)) : nat :=
  match l with
  | [x0; x1; x2] =>
      if well_answered (snd x0)
      then if well_answered (snd x1) then 3 else 2
      else 1
  | _ => 0
  end.

(** The three commands [main] sends for a rain chance, and what it logs
    before sending them. *)
Definition main_commands (C : config) (rain : Z) : list (string * string) :=
  if USE_COLOR_TEMPERATURE C
  then lamp_ct_commands (2700 + 38 * Z.max 0 (Z.min 100 rain)) (PyInt 100)
  else lamp_rgb_commands (map_rain_to_rgb rain) (PyInt 100).

Definition main_log (C : config) (rain : Z) : list (level * message) :=
  [ (INFO, RainChanceUsed rain);
    (INFO, if USE_COLOR_TEMPERATURE C
           then SetCT (2700 + 38 * Z.max 0 (Z.min 100 rain)) 100
           else SetRGB (map_rain_to_rgb rain) 100) ].

(** ** Concrete runs *)

(** A day with 10%, 30% and no figure for the three daylight slots (and 90%
    before dawn); the lamp API accepts every command. *)
Definition sample_forecast : json :=
  JDict [("forecasts",
          JList [JDict [("chanceOfRain",
                         JDict [("T00_06", JStr "90%"); ("T06_12", JStr "10%");
                                ("T12_18", JStr "30%"); ("T18_24", JStr "--%")])]])].

Definition sample_env : env :=
  mk_env (fun k => 1700000000000 + Z.of_nat k)
         (fun k => "uuid-" ++ str_of_int (Z.of_nat k))
         (fun k rq =>
            match req_method rq with
            | GET => Answered (mk_response 200 (Some sample_forecast))
            | POST => Answered (mk_response 200 (Some (JDict [("statusCode", JInt 100)])))
            end).

Definition sample_config : config := mk_config "tok" "sec" "DEV1" "130010" false.



(** The network is down. *)
Definition offline_env : env :=
  mk_env (now_ms sample_env) (uuid4 sample_env) (fun k rq => NoResponse).


(** The lamp API reports a device error (the device is offline). *)
Definition device_error : list (string * json) :=
  [("statusCode", JInt 161); ("body", JDict []); ("message", JStr "device offline")].

Definition device_error_env : env :=
  mk_env (now_ms sample_env) (uuid4 sample_env)
         (fun k rq => Answered (mk_response 200 (Some (JDict device_error)))).

(** * Properties *)

(** ** The library functions agree with their published test vectors *)

Example sha256_abc :
  hex (SHA256.digest (encode_utf8 "abc"))
  = "ba7816bf8f01cfea414140de5dae2223b00361a396177a9cb410ff61f20015ad".
Proof. vm_compute. reflexivity. Qed.

Example sha256_two_blocks :
  hex (SHA256.digest
         (encode_utf8 "abcdbcdecdefdefgefghfghighijhijkijkljklmklmnlmnomnopnopq"))
  = "248d6a61d20638b8e5c026930c3e6039a33ce45964ff2167f6ecedd419db06c1".
Proof. vm_compute. reflexivity. Qed.

(** RFC 4231, test cases 2 and 6 (a key longer than one block). *)
Example hmac_sha256_rfc4231_2 :
  hex (hmac_sha256 (encode_utf8 "Jefe") (encode_utf8 "what do ya want for nothing?"))
  = "5bdcc146bf60754e6a042426089575c75a003f089d2739839dec58b964ec3843".
Proof. vm_compute. reflexivity. Qed.

Example hmac_sha256_rfc4231_6 :
  hex (hmac_sha256 (repeat 170 131)
         (encode_utf8 "Test Using Larger Than Block-Size Key - Hash Key First"))
  = "60e431591ee0b67f0d8a26aacbf5b77f8e0bc6213728c5140546040f0ee37f54".
Proof. vm_compute. reflexivity. Qed.

(** RFC 4648, section 10. *)
Example b64encode_rfc4648 :
  map (fun s => b64encode (encode_utf8 s)) ["f"; "fo"; "foo"; "foob"; "fooba"; "foobar"]
  = ["Zg=="; "Zm8="; "Zm9v"; "Zm9vYg=="; "Zm9vYmE="; "Zm9vYmFy"].
Proof. vm_compute. reflexivity. Qed.

Example binary64_division :
  Float64.div (Float64.of_int 29) (Float64.of_int 100)
  = S754_finite false 5224175567749775 (-54).
Proof. vm_compute. reflexivity. Qed.

(** A digest has 32 bytes, and so has a MAC; its Base64 text has 44
    characters. *)
Lemma sha256_digest_length (msg : bytes) :
  List.length (SHA256.digest msg) = 32%nat.
Proof. unfold SHA256.digest. rewrite !length_app. reflexivity. Qed.

Lemma hmac_sha256_length (key msg : bytes) :
  List.length (hmac_sha256 key msg) = 32%nat.
Proof. unfold hmac_sha256. apply sha256_digest_length. Qed.

Lemma b64encode_length_32 (l : bytes) :
  List.length l = 32%nat -> String.length (b64encode l) = 44%nat.
Proof.
  intros H.
  do 32 (destruct l as [|? l]; [discriminate H|]).
  destruct l; [reflexivity | discriminate H].
Qed.

(** ** Mapping: rain % -> RGB or CT *)

(** C1: on 0..100 [map_rain_to_rgb] is piecewise constant with six buckets:
    0 gives (255,127,0), 1..20 gives (255,255,0), 21..40 gives (127,255,0),
    41..60 gives (0,255,255), 61..80 gives (0,127,255), above 80 gives
    (0,0,255); these are exactly six distinct triples. *)
Theorem map_rain_to_rgb_buckets (rain : Z) :
  0 <= rain <= 100 ->
  (rain = 0 -> map_rain_to_rgb rain = (255, 127, 0)) /\
  (1 <= rain <= 20 -> map_rain_to_rgb rain = (255, 255, 0)) /\
  (21 <= rain <= 40 -> map_rain_to_rgb rain = (127, 255, 0)) /\
  (41 <= rain <= 60 -> map_rain_to_rgb rain = (0, 255, 255)) /\
  (61 <= rain <= 80 -> map_rain_to_rgb rain = (0, 127, 255)) /\
  (80 < rain -> map_rain_to_rgb rain = (0, 0, 255)) /\
  nodup rgb_eq_dec (map map_rain_to_rgb percentages)
  = [(255, 127, 0); (255, 255, 0); (127, 255, 0); (0, 255, 255);
     (0, 127, 255); (0, 0, 255)].
Proof.
  intros _.
  assert (Hlast : nodup rgb_eq_dec (map map_rain_to_rgb percentages)
                  = [(255, 127, 0); (255, 255, 0); (127, 255, 0); (0, 255, 255);
                     (0, 127, 255); (0, 0, 255)])
    by (vm_compute; reflexivity).
  rewrite Hlast. unfold map_rain_to_rgb.
  repeat (split; [intros H|]); try reflexivity;
    repeat match goal with
           | |- context [?a =? ?b] => destruct (Z.eqb_spec a b); try lia
           | |- context [?a <=? ?b] => destruct (Z.leb_spec a b); try lia
           end; reflexivity.
Qed.

Lemma map_rain_to_rgb_buckets_witness :
  0 <= 50 <= 100 /\ map_rain_to_rgb 50 = (0, 255, 255).
Proof.
  split; [lia | apply (map_rain_to_rgb_buckets 50); lia].
Defined.

Lemma ct_exact_all : forallb ct_exact (seq 0 101) = true.
Proof. vm_compute. reflexivity. Qed.

Lemma map_rain_to_ct_in_range (rain : Z) :
  0 <= rain <= 100 -> map_rain_to_ct rain = Ok (2700 + 38 * rain).
Proof.
  intros H.
  assert (Hn : In (Z.to_nat rain) (seq 0 101)) by (apply in_seq; lia).
  pose proof (proj1 (forallb_forall _ _) ct_exact_all _ Hn) as Hc.
  unfold ct_exact in Hc. rewrite Z2Nat.id in Hc by lia.
  destruct (map_rain_to_ct rain) as [ct|e]; [|discriminate].
  apply Z.eqb_eq in Hc. now subst.
Qed.

Lemma map_rain_to_ct_clamps (rain : Z) :
  map_rain_to_ct rain = map_rain_to_ct (Z.max 0 (Z.min 100 rain)).
Proof.
  unfold map_rain_to_ct.
  replace (Z.max 0 (Z.min 100 (Z.max 0 (Z.min 100 rain))))
    with (Z.max 0 (Z.min 100 rain)) by lia.
  reflexivity.
Qed.

(** C2: [map_rain_to_ct] is linear in the percentage: on 0..100 it returns
    2700 + (6500 - 2700) * rain / 100 = 2700 + 38 * rain, so 0 gives 2700 and
    100 gives 6500; any other integer is clamped into 0..100 first, and the
    result always lies in 2700..6500. *)
Theorem map_rain_to_ct_linear (rain : Z) :
  (0 <= rain <= 100 ->
   map_rain_to_ct rain = Ok (2700 + (6500 - 2700) * rain / 100) /\
   2700 + (6500 - 2700) * rain / 100 = 2700 + 38 * rain) /\
  map_rain_to_ct 0 = Ok 2700 /\
  map_rain_to_ct 100 = Ok 6500 /\
  map_rain_to_ct rain = Ok (2700 + 38 * Z.max 0 (Z.min 100 rain)) /\
  2700 <= 2700 + 38 * Z.max 0 (Z.min 100 rain) <= 6500.
Proof.
  split; [|split; [|split; [|split]]].
  - intros H.
    assert (Hdiv : (6500 - 2700) * rain / 100 = 38 * rain).
    { replace ((6500 - 2700) * rain) with (38 * rain * 100) by lia.
      apply Z.div_mul. lia. }
    rewrite Hdiv. split; [apply map_rain_to_ct_in_range; exact H | reflexivity].
  - apply (map_rain_to_ct_in_range 0). lia.
  - apply (map_rain_to_ct_in_range 100). lia.
  - rewrite map_rain_to_ct_clamps. apply map_rain_to_ct_in_range. lia.
  - lia.
Qed.

Lemma map_rain_to_ct_linear_witness :
  0 <= 29 <= 100 /\ map_rain_to_ct 29 = Ok 3802.
Proof.
  split; [lia|].
  destruct (map_rain_to_ct_linear 29) as [H _].
  destruct (H ltac:(lia)) as [H1 _]. exact H1.
Defined.

(** ** One command, one exchange *)

Opaque hmac_sha256 b64encode encode_utf8 json_dumps str_of_int String.append
  API_BASE_URL WEATHER_URL.

Lemma generate_sign_run (E : env) (token secret : string) (s : state) :
  generate_sign E token secret None s
  = (Ok (str_of_int (now_ms E (clock_reads s)),
         b64encode (hmac_sha256 (encode_utf8 secret)
                      (encode_utf8 (token ++ str_of_int (now_ms E (clock_reads s))
                                          ++ uuid4 E (uuid_draws s)))),
         uuid4 E (uuid_draws s)),
     mk_state (S (clock_reads s)) (S (uuid_draws s)) (exchanges s) (log s)).
Proof. reflexivity. Qed.

Lemma post_command_run (E : env) (C : config)
    (device_id command parameter command_type : string) (s : state) :
  let rq := command_request C device_id command parameter command_type
              (now_ms E (clock_reads s)) (uuid4 E (uuid_draws s)) in
  let o := server E (List.length (exchanges s)) rq in
  post_command E C device_id command parameter command_type s
  = (post_result o,
     mk_state (S (clock_reads s)) (S (uuid_draws s))
       (exchanges s ++ [(rq, o)])%list
       (log s ++ (INFO, PostSent (req_url rq)
                          (json_dumps [ ("command", command);
                                        ("parameter", parameter);
                                        ("commandType", command_type) ]))
              :: post_log o)%list).
Proof.
  intros rq o. unfold post_command, bind. rewrite generate_sign_run.
  unfold try, bind, logger_info, requests_post, send; cbn.
  change (mk_request POST _ _ _ _) with rq.
  change (server E (List.length (exchanges s)) rq) with o.
  destruct o as [|r]; cbn.
  - rewrite <- app_assoc. reflexivity.
  - unfold raise_for_status. destruct (error_status r); cbn.
    + rewrite <- app_assoc. reflexivity.
    + unfold response_json. destruct (json_body r) as [j|]; cbn.
      * destruct j; cbn; try reflexivity.
        destruct (lookup "statusCode" d) as [code|]; cbn;
          [destruct (ne_100 code)|]; cbn; rewrite <- app_assoc; reflexivity.
      * rewrite <- app_assoc. reflexivity.
Qed.

(** ** Weather *)

Lemma get_today_rain_percent_max_all_run (E : env) (city_code : string) (s : state) :
  let rq := weather_request city_code in
  let o := server E (List.length (exchanges s)) rq in
  let st := mk_state (clock_reads s) (uuid_draws s) (exchanges s ++ [(rq, o)])%list in
  get_today_rain_percent_max_all E city_code s
  = match fetch o with
    | Raise e => (Ok 0, st (log s ++ [(ERROR, WeatherApiError e)])%list)
    | Ok rain =>
        match daylight_slots rain with
        | Raise e => (Raise e, st (log s))
        | Ok (a, b, c) =>
            (Ok (Z.max (Z.max a b) c),
             st (log s ++ [(INFO, MaxDaylight a b c (Z.max (Z.max a b) c))])%list)
        end
    end.
Proof.
  intros rq o st.
  unfold get_today_rain_percent_max_all, try, bind, requests_get, send; cbn.
  change (mk_request GET _ _ _ _) with rq.
  change (server E (List.length (exchanges s)) rq) with o.
  unfold fetch, chance_of_rain.
  destruct o as [|r]; cbn; [reflexivity|].
  unfold raise_for_status. destruct (error_status r); cbn; [reflexivity|].
  unfold response_json. destruct (json_body r) as [data|]; cbn; [|reflexivity].
  destruct (getitem_key data "forecasts") as [fc|e]; cbn; [|reflexivity].
  destruct (getitem_0 fc) as [today|e]; cbn; [|reflexivity].
  destruct (getitem_key today "chanceOfRain") as [rain|e]; cbn; [|reflexivity].
  unfold daylight_slots.
  destruct (dict_get rain "T06_12" (JStr "")) as [v1|e]; cbn; [|reflexivity].
  destruct (_to_int_pct v1) as [a|e]; cbn; [|reflexivity].
  destruct (dict_get rain "T12_18" (JStr "")) as [v2|e]; cbn; [|reflexivity].
  destruct (_to_int_pct v2) as [b|e]; cbn; [|reflexivity].
  destruct (dict_get rain "T18_24" (JStr "")) as [v3|e]; cbn; [|reflexivity].
  destruct (_to_int_pct v3) as [c|e]; cbn; reflexivity.
Qed.

Lemma fetch_failure_raises (o : outcome) :
  fetch_failure o -> exists e, fetch o = Raise e.
Proof.
  intros [|r H|r H|r data e H1 H2]; unfold fetch.
  - now exists ConnectionError.
  - rewrite H. now exists HTTPError.
  - destruct (error_status r); [now exists HTTPError|].
    rewrite H. now exists JSONDecodeError.
  - destruct (error_status r); [now exists HTTPError|].
    rewrite H1, H2. now exists e.
Qed.

Lemma slot_percentage (rain : list (string * json)) (k : string) :
  slot_is_text (lookup k rain) = true ->
  match dict_get (JDict rain) k (JStr "") with
  | Ok v => _to_int_pct v
  | Raise e => Raise e
  end = Ok (slot_pct (lookup k rain)).
Proof.
  unfold dict_get, slot_is_text, slot_pct, _to_int_pct, pct_of_text.
  destruct (lookup k rain) as [v|]; [|intros _; reflexivity].
  destruct v; cbn; intros H; try reflexivity;
    try (apply negb_true_iff in H; rewrite H; reflexivity).
  destruct (String.eqb_spec s "") as [->|_]; reflexivity.
Qed.

Lemma daylight_slots_text (rain : list (string * json)) :
  slots_are_text rain = true ->
  daylight_slots (JDict rain)
  = Ok (slot_pct (lookup "T06_12" rain), slot_pct (lookup "T12_18" rain),
        slot_pct (lookup "T18_24" rain)).
Proof.
  unfold slots_are_text. intros H.
  apply andb_true_iff in H as [H H3]. apply andb_true_iff in H as [H1 H2].
  pose proof (slot_percentage rain "T06_12" H1) as E1.
  pose proof (slot_percentage rain "T12_18" H2) as E2.
  pose proof (slot_percentage rain "T18_24" H3) as E3.
  unfold daylight_slots.
  destruct (dict_get (JDict rain) "T06_12" (JStr "")); [|discriminate].
  rewrite E1.
  destruct (dict_get (JDict rain) "T12_18" (JStr "")); [|discriminate].
  rewrite E2.
  destruct (dict_get (JDict rain) "T18_24" (JStr "")); [|discriminate].
  rewrite E3. reflexivity.
Qed.





(** C4: on any failure of the fetch step (the GET raises, the status is an
    error status, the body is not valid JSON, or the response lacks
    [forecasts[0].chanceOfRain]) [get_today_rain_percent_max_all] returns 0
    and does not raise; it has made its one request and logged one error. *)
Theorem get_today_rain_percent_max_all_failure
    (E : env) (city_code : string) (s : state) :
  fetch_failure (server E (List.length (exchanges s)) (weather_request city_code)) ->
  exists e : exn,
    get_today_rain_percent_max_all E city_code s
    = (Ok 0,
       mk_state (clock_reads s) (uuid_draws s)
         (exchanges s
            ++ [(weather_request city_code,
                 server E (List.length (exchanges s)) (weather_request city_code))])%list
         (log s ++ [(ERROR, WeatherApiError e)])%list).
Proof.
  intros H. destruct (fetch_failure_raises _ H) as [e He].
  exists e. rewrite get_today_rain_percent_max_all_run, He. reflexivity.
Qed.

Lemma get_today_rain_percent_max_all_failure_witness :
  exists e : exn,
    get_today_rain_percent_max_all offline_env "130010" initial
    = (Ok 0,
       mk_state 0 0 [(weather_request "130010", NoResponse)]
                [(ERROR, WeatherApiError e)]).
Proof.
  apply (get_today_rain_percent_max_all_failure offline_env "130010" initial).
  apply GetRaises.
Defined.

(** C7 (amended): the GET to the weather endpoint is not authenticated: the
    one request [get_today_rain_percent_max_all] sends has no header and no
    body, only the city code appended to the endpoint's URL, whereas every
    request of [post_command] carries an Authorization and a sign header. *)
Theorem weather_request_unauthenticated
    (E : env) (C : config) (city_code : string) (s : state) :
  exchanges (snd (get_today_rain_percent_max_all E city_code s))
  = (exchanges s
       ++ [(weather_request city_code,
            server E (List.length (exchanges s)) (weather_request city_code))])%list /\
  req_method (weather_request city_code) = GET /\
  req_url (weather_request city_code) = WEATHER_URL ++ "/" ++ city_code /\
  req_headers (weather_request city_code) = [] /\
  req_data (weather_request city_code) = None /\
  authenticated (weather_request city_code) = false /\
  (forall device_id command parameter command_type ms nonce,
      authenticated
        (command_request C device_id command parameter command_type ms nonce)
      = true).
Proof.
  split; [|repeat split].
  rewrite get_today_rain_percent_max_all_run.
  destruct (fetch _) as [rain|e]; [|reflexivity].
  destruct (daylight_slots rain) as [[[a b] c]|e]; reflexivity.
Qed.

(** C7 (as stated) fails: the request sent to the weather endpoint in the
    sample run carries no authentication material. *)
Lemma weather_request_sample_unauthenticated :
  map (fun x => authenticated (fst x))
      (exchanges (snd (get_today_rain_percent_max_all sample_env "130010" initial)))
  = [false].
Proof. vm_compute. reflexivity. Qed.

(** ** Commands *)

(** C10: [post_command] returns [None] exactly when the HTTP POST itself
    fails (no response, an error status, a body that is not JSON); a response
    whose JSON object reports a device error (a [statusCode] other than 100)
    is no failure: the payload is returned, and the error is only logged. *)
Theorem post_command_none_iff_request_failed (E : env) (C : config)
    (device_id command parameter command_type : string) (s : state) :
  let rq := command_request C device_id command parameter command_type
              (now_ms E (clock_reads s)) (uuid4 E (uuid_draws s)) in
  let o := server E (List.length (exchanges s)) rq in
  let run := post_command E C device_id command parameter command_type s in
  (fst run = Ok None <-> request_failed o = true) /\
  (forall (r : response) (payload : list (string * json)),
      o = Answered r -> error_status r = false ->
      json_body r = Some (JDict payload) ->
      fst run = Ok (Some (JDict payload)) /\
      (forall code, lookup "statusCode" payload = Some code -> ne_100 code = true ->
                    log (snd run)
                    = (log s ++ [(INFO, PostSent (req_url rq) (json_dumps
                                    [ ("command", command); ("parameter", parameter);
                                      ("commandType", command_type) ]));
                                 (ERROR, SwitchBotError (JDict payload))])%list)).
Proof.
  intros rq o run. subst run. rewrite post_command_run. fold rq. fold o. cbn [fst snd log].
  split.
  - unfold post_result, request_failed.
    destruct o as [|r]; [tauto|].
    destruct (error_status r); cbn; [tauto|].
    destruct (json_body r) as [[]|]; split; intros H; try reflexivity;
      discriminate.
  - intros r payload Ho Hs Hb. unfold post_result, post_log.
    rewrite Ho, Hs, Hb. split; [reflexivity|].
    intros code Hl Hn. rewrite Hl, Hn. reflexivity.
Qed.

Lemma post_command_none_iff_request_failed_witness :
  let run := post_command device_error_env sample_config "DEV1" "turnOn" "default"
               "command" initial in
  request_failed (server device_error_env 0
                    (command_request sample_config "DEV1" "turnOn" "default"
                       "command" 1700000000000 "uuid-0")) = false /\
  fst run = Ok (Some (JDict device_error)) /\
  map fst (log (snd run)) = [INFO; ERROR].
Proof.
  destruct (post_command_none_iff_request_failed device_error_env sample_config
              "DEV1" "turnOn" "default" "command" initial) as [_ H].
  destruct (H (mk_response 200 (Some (JDict device_error))) device_error
              eq_refl eq_refl eq_refl) as [Hr Hl].
  split; [reflexivity|]. split; [exact Hr|].
  rewrite (Hl (JInt 161) eq_refl eq_refl). reflexivity.
Defined.

Lemma bind_post_command {A : Type} (E : env) (C : config)
    (device_id command parameter command_type : string) (k : option json -> M A)
    (s : state) :
  let rq := command_request C device_id command parameter command_type
              (now_ms E (clock_reads s)) (uuid4 E (uuid_draws s)) in
  let o := server E (List.length (exchanges s)) rq in
  let s' := snd (post_command E C device_id command parameter command_type s) in
  (clock_reads s' = S (clock_reads s) /\
   uuid_draws s' = S (uuid_draws s) /\
   exchanges s' = (exchanges s ++ [(rq, o)])%list) /\
  bind (post_command E C device_id command parameter command_type) k s
  = match post_result o with
    | Ok v => k v s'
    | Raise e => (Raise e, s')
    end.
Proof.
  intros rq o s'. subst s'. unfold bind. rewrite post_command_run.
  fold rq. fold o. cbn [snd clock_reads uuid_draws exchanges].
  split; [repeat split|]. destruct (post_result o); reflexivity.
Qed.

Lemma three_commands_run (E : env) (C : config) (device_id : string)
    (c1 p1 c2 p2 c3 p3 : string) (s : state) :
  let cmds := [(c1, p1); (c2, p2); (c3, p3)] in
  let xs := command_exchanges E C device_id s cmds in
  let run := three_commands E C device_id cmds s in
  exchanges (snd run) = (exchanges s ++ firstn (issued xs) xs)%list /\
  clock_reads (snd run) = (issued xs + clock_reads s)%nat /\
  uuid_draws (snd run) = (issued xs + uuid_draws s)%nat /\
  (fst run = Ok tt <-> forallb (fun x => well_answered (snd x)) xs = true) /\
  (fst run = Ok tt -> issued xs = 3%nat).
Proof.
  intros cmds xs run. subst run cmds xs.
  unfold three_commands, command_exchanges, command_exchanges_from, issued,
    command_exchange, well_answered. cbn [snd Nat.add forallb].
  destruct (bind_post_command E C device_id c1 p1 "command"
              (fun _ => post_command E C device_id c2 p2 "command" ;;
                        post_command E C device_id c3 p3 "command" ;; ret tt) s)
    as [(Hc1 & Hu1 & Hx1) ->].
  set (s1 := snd (post_command E C device_id c1 p1 "command" s)) in *.
  destruct (post_result _) as [v0|e0].
  2: { cbn [fst snd firstn andb]. rewrite Hc1, Hu1, Hx1.
       repeat split; discriminate. }
  destruct (bind_post_command E C device_id c2 p2 "command"
              (fun _ => post_command E C device_id c3 p3 "command" ;; ret tt) s1)
    as [(Hc2 & Hu2 & Hx2) ->].
  set (s2 := snd (post_command E C device_id c2 p2 "command" s1)) in *.
  rewrite Hc1, Hu1, Hx1, length_app, Nat.add_1_r in *. cbn [List.length] in *.
  destruct (post_result _) as [v1|e1].
  2: { cbn [fst snd firstn andb]. rewrite Hc2, Hu2, Hx2, <- app_assoc.
       repeat split; discriminate. }
  destruct (bind_post_command E C device_id c3 p3 "command"
              (fun _ => ret tt) s2)
    as [(Hc3 & Hu3 & Hx3) ->].
  set (s3 := snd (post_command E C device_id c3 p3 "command" s2)) in *.
  rewrite Hc2, Hu2, Hx2, !length_app, !Nat.add_1_r in *. cbn [List.length] in *.
  destruct (post_result _) as [v2|e2];
    cbn [fst snd firstn ret andb]; rewrite Hc3, Hu3, Hx3, <- !app_assoc;
    repeat split; try discriminate.
Qed.

(** C5: [generate_sign(token, secret, nonce)] returns [(t, sign, nonce)]
    where [t] is the clock in integer milliseconds as a decimal string and
    [sign] is the Base64 text (44 characters) of the HMAC-SHA256 digest keyed
    by the UTF-8 bytes of [secret] over the UTF-8 bytes of token + t + nonce;
    with no nonce supplied, a fresh UUID string is drawn and used.  It reads
    the clock once and exchanges nothing. *)
Theorem generate_sign_spec (E : env) (token secret : string)
    (nonce : option string) (s : state) :
  let n := match nonce with
           | Some n => n
           | None => uuid4 E (uuid_draws s)
           end in
  let t := str_of_int (now_ms E (clock_reads s)) in
  let sign := b64encode (hmac_sha256 (encode_utf8 secret)
                                     (encode_utf8 (token ++ t ++ n))) in
  generate_sign E token secret nonce s
  = (Ok (t, sign, n),
     mk_state (S (clock_reads s))
              (match nonce with
               | Some _ => uuid_draws s
               | None => S (uuid_draws s)
               end)
              (exchanges s) (log s)) /\
  String.length sign = 44%nat.
Proof.
  intros n t sign. split.
  - subst n t sign. destruct nonce; reflexivity.
  - apply b64encode_length_32, hmac_sha256_length.
Qed.

(** The signature computed for the sample configuration is the one Python's
    hmac, hashlib and base64 modules give for the same inputs. *)
Example generate_sign_sample :
  fst (generate_sign sample_env "tok" "sec" None initial)
  = Ok ("1700000000000", "dKGtD/Jm5dcWBbn/ZfnzwknOxh8lJw7g/aZPGfwJd9k=", "uuid-0").
Proof. vm_compute. reflexivity. Qed.

Example generate_sign_latin1 :
  fst (generate_sign sample_env (String "t" (String (chr 246) "k"))
         (String "s" (String (chr 233) "c")) (Some "uu")
         (mk_state 0 0 [] []))
  = Ok ("1700000000000", b64encode (hmac_sha256 [115; 195; 169; 99]
          (encode_utf8 (String "t" (String (chr 246) "k") ++ "1700000000000" ++ "uu"))),
        "uu").
Proof. vm_compute. reflexivity. Qed.

(** ** Floor lamp control *)

Lemma set_lamp_rgb_commands (E : env) (C : config) (device_id : string)
    (color : Z * Z * Z) (brightness : pyobj) :
  set_lamp_rgb E C device_id color brightness
  = three_commands E C device_id (lamp_rgb_commands color brightness).
Proof. destruct color as [[r g] b]. reflexivity. Qed.

Lemma set_lamp_ct_commands (E : env) (C : config) (device_id : string)
    (color_temperature : Z) (brightness : pyobj) :
  set_lamp_ct E C device_id color_temperature brightness
  = three_commands E C device_id (lamp_ct_commands color_temperature brightness).
Proof. reflexivity. Qed.










(** ** Main execution *)

Lemma map_rain_to_ct_total (rain : Z) :
  map_rain_to_ct rain = Ok (2700 + 38 * Z.max 0 (Z.min 100 rain)).
Proof. rewrite map_rain_to_ct_clamps. apply map_rain_to_ct_in_range. lia. Qed.


Lemma main_unfold (E : env) (C : config) (s : state) :
  main E C s
  = let (r0, s1) := get_today_rain_percent_max_all E (CITY_CODE C) s in
    match r0 with
    | Raise e => (Raise e, s1)
    | Ok rain =>
        let (r, s3) :=
          three_commands E C (DEVICE_ID C) (main_commands C rain)
            (mk_state (clock_reads s1) (uuid_draws s1) (exchanges s1)
                      (log s1 ++ main_log C rain)%list) in
        match r with
        | Ok _ => (Ok true, s3)
        | Raise e => (Raise e, s3)
        end
    end.
Proof.
  unfold main, bind, main_commands, main_log.
  destruct (get_today_rain_percent_max_all E (CITY_CODE C) s) as [[rain|e] s1];
    [|reflexivity].
  cbn [logger_info]. destruct (USE_COLOR_TEMPERATURE C).
  - unfold lift. rewrite map_rain_to_ct_total.
    cbn [logger_info clock_reads uuid_draws exchanges log].
    rewrite set_lamp_ct_commands, <- app_assoc. reflexivity.
  - cbn [logger_info clock_reads uuid_draws exchanges log].
    rewrite set_lamp_rgb_commands, <- app_assoc. reflexivity.
Qed.

Lemma main_commands_three (C : config) (rain : Z) :
  exists c1 p1 c2 p2 c3 p3,
    main_commands C rain = [(c1, p1); (c2, p2); (c3, p3)].
Proof.
  unfold main_commands, lamp_ct_commands, lamp_rgb_commands.
  destruct (USE_COLOR_TEMPERATURE C); repeat eexists.
Qed.




(** * Further properties *)

Transparent str_of_int String.append.

(** ** Percentage texts *)

Lemma remove_non_digits_app (a b : string) :
  remove_non_digits (a ++ b) = remove_non_digits a ++ remove_non_digits b.
Proof.
  induction a as [|c a IH]; [reflexivity|].
  cbn. destruct (is_digit c); cbn; now rewrite IH.
Qed.

Lemma remove_non_digits_uint (u : Decimal.uint) :
  remove_non_digits (NilEmpty.string_of_uint u) = NilEmpty.string_of_uint u.
Proof. induction u; cbn; now rewrite ?IHu. Qed.

Ltac eval_ord :=
  repeat match goal with
         | |- context [ord ?c] =>
             let v := eval vm_compute in (ord c) in change (ord c) with v
         end.

Lemma int_of_digits_from_uint (u : Decimal.uint) (acc : positive) :
  int_of_digits_from (Zpos acc) (NilEmpty.string_of_uint u)
  = Zpos (Pos.of_uint_acc u acc).
Proof.
  revert acc.
  induction u; intros acc;
    cbn [NilEmpty.string_of_uint int_of_digits_from Pos.of_uint_acc];
    [reflexivity| ..];
    rewrite <- IHu; f_equal; eval_ord; lia.
Qed.

Lemma int_of_digits_uint (u : Decimal.uint) :
  int_of_digits (NilEmpty.string_of_uint u) = Z.of_N (Pos.of_uint u).
Proof.
  unfold int_of_digits.
  induction u; cbn [NilEmpty.string_of_uint int_of_digits_from Pos.of_uint];
    [reflexivity | exact IHu | ..];
    cbn [Z.of_N]; rewrite <- int_of_digits_from_uint; reflexivity.
Qed.

Lemma int_of_digits_str_of_int (n : Z) :
  int_of_digits (remove_non_digits (str_of_int n)) = Z.abs n.
Proof.
  unfold str_of_int.
  assert (H : forall p, int_of_digits
                          (remove_non_digits (NilZero.string_of_uint (Pos.to_uint p)))
                        = Zpos p).
  { intros p. unfold NilZero.string_of_uint.
    destruct (Pos.to_uint p) eqn:Hp;
      [exfalso; exact (DecimalPos.Unsigned.to_uint_nonnil p Hp)| ..];
      rewrite <- Hp, remove_non_digits_uint, int_of_digits_uint,
        DecimalPos.Unsigned.of_to; reflexivity. }
  destruct n as [|p|p]; [reflexivity| apply H |].
  cbn [Z.to_int NilZero.string_of_int remove_non_digits]. apply H.
Qed.

Lemma pct_of_text_digits (t : string) :
  pct_of_text t = int_of_digits (remove_non_digits t).
Proof.
  unfold pct_of_text.
  destruct (String.eqb_spec (remove_non_digits t) "") as [->|_]; reflexivity.
Qed.

Lemma _to_int_pct_text (t : string) :
  _to_int_pct (JStr t) = Ok (int_of_digits (remove_non_digits t)).
Proof.
  unfold _to_int_pct, truthy.
  destruct (String.eqb_spec t "") as [->|_]; cbn [negb]; [reflexivity|].
  destruct (String.eqb_spec (remove_non_digits t) "") as [->|_]; reflexivity.
Qed.


(** X2: a character that is not a decimal digit changes nothing wherever it
    stands in the text: signs, decimal points, spaces and units are dropped
    and the remaining digits are read as one number. *)
Theorem _to_int_pct_ignores_non_digits (a b : string) (c : ascii) :
  is_digit c = false ->
  _to_int_pct (JStr (a ++ String c b)) = _to_int_pct (JStr (a ++ b)).
Proof.
  intros H. rewrite !_to_int_pct_text, !remove_non_digits_app.
  cbn [remove_non_digits]. rewrite H. reflexivity.
Qed.

Lemma _to_int_pct_ignores_non_digits_witness :
  _to_int_pct (JStr "12.5%") = _to_int_pct (JStr "125%") /\
  _to_int_pct (JStr "125%") = Ok 125.
Proof.
  split; [|reflexivity].
  exact (_to_int_pct_ignores_non_digits "12" "5%" "."%char eq_refl).
Defined.

Lemma int_of_digits_from_nonneg (s : string) (acc : Z) :
  0 <= acc -> 0 <= int_of_digits_from acc (remove_non_digits s).
Proof.
  revert acc. induction s as [|c s IH]; intros acc H; [exact H|].
  cbn [remove_non_digits]. destruct (is_digit c) eqn:Hc; [|now apply IH].
  cbn [int_of_digits_from]. apply IH.
  unfold is_digit in Hc. apply andb_true_iff in Hc as [H1 H2]. lia.
Qed.

Lemma _to_int_pct_nonneg (v : json) (n : Z) : _to_int_pct v = Ok n -> 0 <= n.
Proof.
  unfold _to_int_pct.
  destruct (if truthy v then v else JStr ""); try discriminate.
  intros [= <-]. destruct (String.eqb _ _); [lia|].
  apply int_of_digits_from_nonneg. lia.
Qed.

Lemma daylight_slots_nonneg (rain : json) (a b c : Z) :
  daylight_slots rain = Ok (a, b, c) -> 0 <= a /\ 0 <= b /\ 0 <= c.
Proof.
  unfold daylight_slots.
  destruct (dict_get rain "T06_12" (JStr "")) as [v1|]; [|discriminate].
  destruct (_to_int_pct v1) as [a'|] eqn:H1; [|discriminate].
  destruct (dict_get rain "T12_18" (JStr "")) as [v2|]; [|discriminate].
  destruct (_to_int_pct v2) as [b'|] eqn:H2; [|discriminate].
  destruct (dict_get rain "T18_24" (JStr "")) as [v3|]; [|discriminate].
  destruct (_to_int_pct v3) as [c'|] eqn:H3; [|discriminate].
  intros [= <- <- <-].
  repeat split; eapply _to_int_pct_nonneg; eassumption.
Qed.

(** X3: whatever the server answers, a value returned by
    [get_today_rain_percent_max_all] is a non-negative integer (it is not
    bounded above: a slot reading "250%" gives 250). *)
Theorem get_today_rain_percent_max_all_nonneg
    (E : env) (city_code : string) (s : state) (n : Z) :
  fst (get_today_rain_percent_max_all E city_code s) = Ok n -> 0 <= n.
Proof.
  rewrite get_today_rain_percent_max_all_run.
  destruct (fetch _) as [rain|e]; [|intros [= <-]; lia].
  destruct (daylight_slots rain) as [[[a b] c]|e] eqn:Hd; [|discriminate].
  intros [= <-]. apply daylight_slots_nonneg in Hd. lia.
Qed.

Lemma get_today_rain_percent_max_all_nonneg_witness :
  0 <= 30.
Proof.
  exact (get_today_rain_percent_max_all_nonneg sample_env "130010" initial 30 eq_refl).
Defined.

Lemma slot_percentage_or_error (rain : list (string * json)) (k : string) :
  match dict_get (JDict rain) k (JStr "") with
  | Ok v => _to_int_pct v
  | Raise e => Raise e
  end
  = if slot_is_text (lookup k rain) then Ok (slot_pct (lookup k rain))
    else Raise TypeError.
Proof.
  destruct (slot_is_text (lookup k rain)) eqn:H;
    [now apply slot_percentage|].
  unfold dict_get, slot_is_text, _to_int_pct in *.
  destruct (lookup k rain) as [v|]; [|discriminate].
  destruct v; try discriminate;
    apply negb_false_iff in H; cbn in H |- *; rewrite ?H; try reflexivity;
    destruct x; try discriminate; reflexivity.
Qed.

Lemma daylight_slots_dict (rain : list (string * json)) :
  daylight_slots (JDict rain)
  = if slots_are_text rain
    then Ok (slot_pct (lookup "T06_12" rain), slot_pct (lookup "T12_18" rain),
             slot_pct (lookup "T18_24" rain))
    else Raise TypeError.
Proof.
  destruct (slots_are_text rain) eqn:H; [now apply daylight_slots_text|].
  assert (G : forall k, dict_get (JDict rain) k (JStr "")
                        = Ok match lookup k rain with
                             | Some x => x
                             | None => JStr ""
                             end)
    by (intros k; unfold dict_get; destruct (lookup k rain); reflexivity).
  pose proof (slot_percentage_or_error rain "T06_12") as E1.
  pose proof (slot_percentage_or_error rain "T12_18") as E2.
  pose proof (slot_percentage_or_error rain "T18_24") as E3.
  rewrite G in E1, E2, E3.
  unfold slots_are_text in H. unfold daylight_slots.
  rewrite !G, E1.
  destruct (slot_is_text (lookup "T06_12" rain)); [|reflexivity].
  rewrite E2.
  destruct (slot_is_text (lookup "T12_18" rain)); [|reflexivity].
  rewrite E3.
  destruct (slot_is_text (lookup "T18_24" rain)); [discriminate|reflexivity].
Qed.

(** X4: [get_today_rain_percent_max_all] lets an exception escape in two
    cases only, both after a successful extraction: [AttributeError] when
    [chanceOfRain] is not a JSON object, [TypeError] when it is one and a
    daylight slot holds a truthy value that is not a string.  No transport,
    status, decoding, key or index error ever escapes. *)
Theorem get_today_rain_percent_max_all_raises_iff
    (E : env) (city_code : string) (s : state) (e : exn) :
  fst (get_today_rain_percent_max_all E city_code s) = Raise e <->
  exists rain : json,
    fetch (server E (List.length (exchanges s)) (weather_request city_code)) = Ok rain /\
    ((e = AttributeError /\ forall d, rain <> JDict d) \/
     (e = TypeError /\ exists d, rain = JDict d /\ slots_are_text d = false)).
Proof.
  rewrite get_today_rain_percent_max_all_run.
  destruct (fetch _) as [rain|e0].
  2: { split; [discriminate|]. intros (rain & H & _). discriminate. }
  destruct rain as [ | | | | | |d];
    try (cbn; split;
         [ intros [= <-]; eexists; split; [reflexivity|]; left; split;
           [reflexivity | intros d; discriminate]
         | intros (rain & [= <-] & [[-> _]|(_ & d & Hd & _)]);
           [reflexivity | discriminate] ]).
  rewrite daylight_slots_dict. destruct (slots_are_text d) eqn:Ht.
  - split; [discriminate|].
    intros (rain & [= <-] & [[_ H]|(_ & d' & [= <-] & H)]);
      [exfalso; exact (H d eq_refl) | congruence].
  - cbn. split.
    + intros [= <-]. exists (JDict d). split; [reflexivity|]. right.
      split; [reflexivity|]. now exists d.
    + intros (rain & [= <-] & [[_ H]|(-> & _)]);
        [exfalso; exact (H d eq_refl) | reflexivity].
Qed.

(** ** Mapping beyond 0..100 *)

Ltac split_comparisons :=
  repeat match goal with
         | |- context [?a =? ?b] => destruct (Z.eqb_spec a b)
         | |- context [?a <=? ?b] => destruct (Z.leb_spec a b)
         end.

(** X5: outside 0..100 [map_rain_to_rgb] still answers: a negative chance
    falls into the first [<= 20] test and gives yellow (255,255,0), not the
    orange of 0, and anything above 80, also above 100, gives dark blue.
    Every channel it returns lies in 0..255. *)
Theorem map_rain_to_rgb_out_of_range (rain : Z) :
  (rain < 0 -> map_rain_to_rgb rain = (255, 255, 0)) /\
  (100 < rain -> map_rain_to_rgb rain = (0, 0, 255)) /\
  (let '(r, g, b) := map_rain_to_rgb rain in
   0 <= r <= 255 /\ 0 <= g <= 255 /\ 0 <= b <= 255).
Proof.
  unfold map_rain_to_rgb.
  repeat split; try intros H; split_comparisons; try lia; reflexivity.
Qed.

Lemma map_rain_to_rgb_out_of_range_witness :
  map_rain_to_rgb (-1) = (255, 255, 0) /\ map_rain_to_rgb 101 = (0, 0, 255).
Proof.
  split.
  - apply (map_rain_to_rgb_out_of_range (-1)). lia.
  - apply (map_rain_to_rgb_out_of_range 101). lia.
Defined.

(** X6: more rain never makes the colour redder nor less blue: over all
    integers the red channel of [map_rain_to_rgb] is non-increasing and the
    blue channel non-decreasing. *)
Theorem map_rain_to_rgb_monotone (low high : Z) :
  low <= high ->
  fst (fst (map_rain_to_rgb high)) <= fst (fst (map_rain_to_rgb low)) /\
  snd (map_rain_to_rgb low) <= snd (map_rain_to_rgb high).
Proof.
  intros H. unfold map_rain_to_rgb.
  split_comparisons; cbn [fst snd]; lia.
Qed.

Lemma map_rain_to_rgb_monotone_witness :
  fst (fst (map_rain_to_rgb 70)) <= fst (fst (map_rain_to_rgb 30)) /\
  snd (map_rain_to_rgb 30) <= snd (map_rain_to_rgb 70).
Proof. apply (map_rain_to_rgb_monotone 30 70). lia. Defined.

(** X7: [map_rain_to_ct] never raises and is non-decreasing over all
    integers; it saturates at both ends: 2700 for every chance up to 0 and
    6500 for every chance from 100 on. *)
Theorem map_rain_to_ct_monotone (low high : Z) :
  low <= high ->
  exists ct_low ct_high : Z,
    map_rain_to_ct low = Ok ct_low /\ map_rain_to_ct high = Ok ct_high /\
    ct_low <= ct_high /\
    (low <= 0 -> ct_low = 2700) /\ (100 <= high -> ct_high = 6500).
Proof.
  intros H. rewrite !map_rain_to_ct_total.
  eexists. eexists. split; [reflexivity|]. split; [reflexivity|]. lia.
Qed.

Lemma map_rain_to_ct_monotone_witness :
  exists ct_low ct_high : Z,
    map_rain_to_ct (-20) = Ok ct_low /\ map_rain_to_ct 250 = Ok ct_high /\
    ct_low <= ct_high /\ ct_low = 2700 /\ ct_high = 6500.
Proof.
  destruct (map_rain_to_ct_monotone (-20) 250 ltac:(lia))
    as (l & h & Hl & Hh & Hle & H0 & H100).
  exists l, h. repeat split; try assumption; [apply H0 | apply H100]; lia.
Defined.

(** ** Commands, whatever the answer *)

(** X8: the lamp functions normalise their arguments: a call with
    out-of-range channels, colour temperature or brightness is the same
    computation as the call with the clamped values, so normalising twice
    changes nothing. *)
Theorem set_lamp_normalises (E : env) (C : config) (device_id : string)
    (r g b color_temperature : Z) (brightness : pyobj) :
  set_lamp_rgb E C device_id (r, g, b) brightness
  = set_lamp_rgb E C device_id (clamp 0 255 r, clamp 0 255 g, clamp 0 255 b)
      (PyInt (clamp_brightness brightness)) /\
  set_lamp_ct E C device_id color_temperature brightness
  = set_lamp_ct E C device_id (clamp 2700 6500 color_temperature)
      (PyInt (clamp_brightness brightness)).
Proof.
  assert (Hb : clamp_brightness (PyInt (clamp_brightness brightness))
               = clamp_brightness brightness)
    by (unfold clamp_brightness; cbn [py_int]; lia).
  assert (Hc : forall lo hi v, lo <= hi -> clamp lo hi (clamp lo hi v) = clamp lo hi v)
    by (intros; unfold clamp; lia).
  rewrite !set_lamp_rgb_commands, !set_lamp_ct_commands.
  unfold lamp_rgb_commands, lamp_ct_commands, rgb_parameter.
  rewrite Hb, !Hc by lia. split; reflexivity.
Qed.

(** X9: [post_command] never retries and never gives up before sending:
    whatever the outcome, also when it raises, it has sent exactly one
    request, the signed POST of its command, and has read the clock once and
    drawn one UUID. *)
Theorem post_command_one_exchange (E : env) (C : config)
    (device_id command parameter command_type : string) (s : state) :
  let rq := command_request C device_id command parameter command_type
              (now_ms E (clock_reads s)) (uuid4 E (uuid_draws s)) in
  let s' := snd (post_command E C device_id command parameter command_type s) in
  exchanges s' = (exchanges s ++ [(rq, server E (List.length (exchanges s)) rq)])%list /\
  clock_reads s' = S (clock_reads s) /\
  uuid_draws s' = S (uuid_draws s) /\
  exists entries, log s' = (log s ++ entries)%list /\
                  (1 <= List.length entries <= 2)%nat.
Proof.
  intros rq s'. subst s'. rewrite post_command_run. fold rq.
  cbn [snd exchanges clock_reads uuid_draws log].
  repeat split. eexists. split; [reflexivity|].
  unfold post_log. cbn [List.length].
  destruct (server E (List.length (exchanges s)) rq) as [|r]; [cbn; lia|].
  destruct (error_status r); [cbn; lia|].
  destruct (json_body r) as [[]|]; cbn; try lia.
  destruct (lookup "statusCode" d) as [code|]; [destruct (ne_100 code)|]; cbn; lia.
Qed.


(** ** The whole run *)








Lemma request_failed_post (o : outcome) :
  request_failed o = true ->
  post_result o = Ok None /\
  exists e, post_log o = [(ERROR, SwitchBotRequestError e)].
Proof.
  unfold request_failed, post_result, post_log.
  destruct o as [|r]; [intros _; split; [reflexivity | now eexists]|].
  destruct (error_status r); cbn [orb];
    [intros _; split; [reflexivity | now eexists]|].
  destruct (json_body r); [discriminate|].
  intros _; split; [reflexivity | now eexists].
Qed.

Lemma request_failed_fetch (o : outcome) :
  request_failed o = true -> exists e, fetch o = Raise e.
Proof.
  unfold request_failed, fetch.
  destruct o as [|r]; [now eexists|].
  destruct (error_status r); cbn [orb]; [now eexists|].
  destruct (json_body r); [discriminate | now eexists].
Qed.

Ltac fail_one_post H :=
  unfold bind at 1; rewrite post_command_run;
  match goal with
  | |- context [post_result ?o] =>
      let Hr := fresh "Hr" in
      let e := fresh "e" in
      let Hl := fresh "Hl" in
      destruct (request_failed_post o (H _ _)) as [Hr [e Hl]];
      rewrite Hr, Hl
  end;
  cbv beta iota.

Lemma three_commands_all_fail (E : env) (C : config) (device_id : string)
    (c1 p1 c2 p2 c3 p3 : string) (s : state) :
  (forall k rq, request_failed (server E k rq) = true) ->
  exists s' entries,
    three_commands E C device_id [(c1, p1); (c2, p2); (c3, p3)] s = (Ok tt, s') /\
    List.length (exchanges s') = (List.length (exchanges s) + 3)%nat /\
    log s' = (log s ++ entries)%list /\
    List.length (filter is_error_entry entries) = 3%nat.
Proof.
  intros H. unfold three_commands.
  fail_one_post H. fail_one_post H. fail_one_post H.
  eexists. eexists. split; [reflexivity|]. cbn [exchanges log].
  split; [rewrite !length_app; cbn [List.length]; lia|].
  rewrite <- !app_assoc. split; reflexivity.
Qed.

(** X13: the value [main] returns says nothing about success: when every
    request of the run fails as a request (no response, an error status, or
    a body that is not JSON), [main] still makes its four exchanges, logs
    four errors and returns [True]. *)
Theorem main_returns_true_when_all_requests_fail (E : env) (C : config) (s : state) :
  (forall k rq, request_failed (server E k rq) = true) ->
  fst (main E C s) = Ok true /\
  List.length (exchanges (snd (main E C s))) = (List.length (exchanges s) + 4)%nat /\
  exists entries,
    log (snd (main E C s)) = (log s ++ entries)%list /\
    List.length (filter is_error_entry entries) = 4%nat.
Proof.
  intros H. rewrite main_unfold, get_today_rain_percent_max_all_run.
  destruct (request_failed_fetch _ (H (List.length (exchanges s))
                                      (weather_request (CITY_CODE C)))) as [e0 ->].
  cbv beta iota. cbn [clock_reads uuid_draws exchanges log].
  destruct (main_commands_three C 0) as (c1 & p1 & c2 & p2 & c3 & p3 & ->).
  match goal with
  | |- context [three_commands E C ?d _ ?st] =>
      destruct (three_commands_all_fail E C d c1 p1 c2 p2 c3 p3 st H)
        as (s' & entries & -> & Hx & Hl & Hn)
  end.
  cbn [fst snd exchanges log] in *.
  split; [reflexivity|]. split.
  - rewrite Hx, length_app. cbn [List.length]. lia.
  - rewrite Hl, <- !app_assoc. eexists. split; [reflexivity|].
    unfold main_log. cbn [app filter is_error_entry fst List.length].
    rewrite Hn. reflexivity.
Qed.

Lemma main_returns_true_when_all_requests_fail_witness :
  fst (main offline_env sample_config initial) = Ok true /\
  map fst (filter is_error_entry (log (snd (main offline_env sample_config initial))))
  = [ERROR; ERROR; ERROR; ERROR].
Proof.
  destruct (main_returns_true_when_all_requests_fail offline_env sample_config initial
              (fun k rq => eq_refl)) as (Hr & _ & entries & Hl & Hn).
  split; [exact Hr|]. vm_compute. reflexivity.
Defined.





(** ** Settings *)

Ltac lower_char_cases :=
  let H := fresh in
  intros c; destruct c as [[] [] [] [] [] [] [] []]; vm_compute; intros H;
  try discriminate H; auto.

Lemma lower_char_1 : forall c, lower_char c = "1"%char -> c = "1"%char.
Proof. lower_char_cases. Qed.

Lemma lower_char_t : forall c, lower_char c = "t"%char -> c = "t"%char \/ c = "T"%char.
Proof. lower_char_cases. Qed.

Lemma lower_char_r : forall c, lower_char c = "r"%char -> c = "r"%char \/ c = "R"%char.
Proof. lower_char_cases. Qed.

Lemma lower_char_u : forall c, lower_char c = "u"%char -> c = "u"%char \/ c = "U"%char.
Proof. lower_char_cases. Qed.

Lemma lower_char_e : forall c, lower_char c = "e"%char -> c = "e"%char \/ c = "E"%char.
Proof. lower_char_cases. Qed.

Lemma lower_char_y : forall c, lower_char c = "y"%char -> c = "y"%char \/ c = "Y"%char.
Proof. lower_char_cases. Qed.

Lemma lower_char_s : forall c, lower_char c = "s"%char -> c = "s"%char \/ c = "S"%char.
Proof. lower_char_cases. Qed.

Ltac pick_spelling := cbn [In]; repeat (first [left; reflexivity | right]).

Lemma lower_spellings (v : string) :
  In (lower v) ["1"; "true"; "t"; "yes"; "y"] -> In v ct_spellings.
Proof.
  intros [H|[H|[H|[H|[H|[]]]]]]; symmetry in H.
  - destruct v as [|a [|x v]]; try discriminate H.
    injection H as Ha. apply lower_char_1 in Ha as ->. pick_spelling.
  - destruct v as [|a [|b [|c [|d [|x v]]]]]; try discriminate H.
    injection H as Ha Hb Hc Hd.
    apply lower_char_t in Ha. apply lower_char_r in Hb.
    apply lower_char_u in Hc. apply lower_char_e in Hd.
    destruct Ha as [-> | ->], Hb as [-> | ->], Hc as [-> | ->], Hd as [-> | ->];
      pick_spelling.
  - destruct v as [|a [|x v]]; try discriminate H.
    injection H as Ha. apply lower_char_t in Ha as [-> | ->]; pick_spelling.
  - destruct v as [|a [|b [|c [|x v]]]]; try discriminate H.
    injection H as Ha Hb Hc.
    apply lower_char_y in Ha. apply lower_char_e in Hb. apply lower_char_s in Hc.
    destruct Ha as [-> | ->], Hb as [-> | ->], Hc as [-> | ->]; pick_spelling.
  - destruct v as [|a [|x v]]; try discriminate H.
    injection H as Ha. apply lower_char_y in Ha as [-> | ->]; pick_spelling.
Qed.

Lemma existsb_eqb_In (x : string) (l : list string) :
  existsb (String.eqb x) l = true <-> In x l.
Proof.
  rewrite existsb_exists. split.
  - intros (y & Hy & He). apply String.eqb_eq in He. now subst.
  - intros H. exists x. split; [exact H | apply String.eqb_refl].
Qed.

Lemma load_settings_flag (vars : environ) (C : config) :
  load_settings vars = Ok C ->
  USE_COLOR_TEMPERATURE C
  = existsb (String.eqb (lower (getenv vars "USE_COLOR_TEMPERATURE" "0")))
            ["1"; "true"; "t"; "yes"; "y"].
Proof.
  unfold load_settings.
  destruct (environ_getitem vars "SWITCHBOT_ACCESS_TOKEN"); [|discriminate].
  destruct (environ_getitem vars "SWITCHBOT_SECRET"); [|discriminate].
  destruct (environ_getitem vars "SWITCHBOT_FLOOR_LAMP_DEVICE_ID"); [|discriminate].
  destruct (environ_getitem vars "WEATHER_CITY_CODE"); [|discriminate].
  now intros [= <-].
Qed.

(** X15: the colour temperature mode is selected exactly by the 29 spellings
    of 1, t, y, yes and true in any mix of upper and lower case; with the
    variable unset, or set to anything else (0, on, 2, an empty or padded
    value), the script runs in RGB mode. *)
Theorem use_color_temperature_spellings (vars : environ) (C : config) :
  load_settings vars = Ok C ->
  (USE_COLOR_TEMPERATURE C = true <->
   exists v, lookup "USE_COLOR_TEMPERATURE" vars = Some v /\ In v ct_spellings).
Proof.
  intros H. rewrite (load_settings_flag vars C H), existsb_eqb_In.
  unfold getenv. destruct (lookup "USE_COLOR_TEMPERATURE" vars) as [v|].
  - split.
    + intros Hl. exists v. split; [reflexivity | now apply lower_spellings].
    + intros (v' & [= <-] & Hv).
      unfold ct_spellings in Hv. cbn [In] in Hv.
      repeat (destruct Hv as [<- | Hv]; [vm_compute; tauto|]). contradiction.
  - split.
    + vm_compute. intros Hl. repeat (destruct Hl as [Hl|Hl]; try discriminate Hl).
      contradiction.
    + intros (v' & Hv & _). discriminate.
Qed.

Lemma use_color_temperature_spellings_witness :
  exists C,
    load_settings [ ("SWITCHBOT_ACCESS_TOKEN", "tok"); ("SWITCHBOT_SECRET", "sec");
                    ("SWITCHBOT_FLOOR_LAMP_DEVICE_ID", "DEV1");
                    ("WEATHER_CITY_CODE", "130010");
                    ("USE_COLOR_TEMPERATURE", "Yes") ] = Ok C /\
    USE_COLOR_TEMPERATURE C = true.
Proof.
  eexists. split; [reflexivity|].
  apply (use_color_temperature_spellings
           [ ("SWITCHBOT_ACCESS_TOKEN", "tok"); ("SWITCHBOT_SECRET", "sec");
             ("SWITCHBOT_FLOOR_LAMP_DEVICE_ID", "DEV1");
             ("WEATHER_CITY_CODE", "130010");
             ("USE_COLOR_TEMPERATURE", "Yes") ] _ eq_refl).
  eexists. split; [reflexivity|]. pick_spelling.
Defined.

(** X16: the script starts only with its four variables set: if any of
    SWITCHBOT_ACCESS_TOKEN, SWITCHBOT_SECRET, SWITCHBOT_FLOOR_LAMP_DEVICE_ID
    and WEATHER_CITY_CODE is missing, loading the settings raises [KeyError]
    and the script ends before any request or log entry; otherwise the
    settings hold the four values as they are and the script is [main()].
    USE_COLOR_TEMPERATURE is not required. *)
Theorem load_settings_required (E : env) (vars : environ) (s : state) :
  (forallb (is_set vars) required_variables = false ->
   load_settings vars = Raise KeyError /\ script E vars s = (Raise KeyError, s)) /\
  (forallb (is_set vars) required_variables = true ->
   exists C,
     load_settings vars = Ok C /\ script E vars s = main E C s /\
     lookup "SWITCHBOT_ACCESS_TOKEN" vars = Some (ACCESS_TOKEN C) /\
     lookup "SWITCHBOT_SECRET" vars = Some (SECRET C) /\
     lookup "SWITCHBOT_FLOOR_LAMP_DEVICE_ID" vars = Some (DEVICE_ID C) /\
     lookup "WEATHER_CITY_CODE" vars = Some (CITY_CODE C)).
Proof.
  unfold script, load_settings, environ_getitem, required_variables, is_set.
  cbn [forallb].
  destruct (lookup "SWITCHBOT_ACCESS_TOKEN" vars);
    destruct (lookup "SWITCHBOT_SECRET" vars);
    destruct (lookup "SWITCHBOT_FLOOR_LAMP_DEVICE_ID" vars);
    destruct (lookup "WEATHER_CITY_CODE" vars);
    cbn [andb]; (split; [intros H; try discriminate H; split; reflexivity|]);
    intros H; try discriminate H.
  eexists. repeat split.
Qed.

Lemma load_settings_required_witness :
  load_settings [ ("SWITCHBOT_ACCESS_TOKEN", "tok"); ("SWITCHBOT_SECRET", "sec");
                  ("WEATHER_CITY_CODE", "130010") ] = Raise KeyError /\
  script sample_env [ ("SWITCHBOT_ACCESS_TOKEN", "tok"); ("SWITCHBOT_SECRET", "sec");
                      ("WEATHER_CITY_CODE", "130010") ] initial
  = (Raise KeyError, initial).
Proof.
  apply (load_settings_required sample_env
           [ ("SWITCHBOT_ACCESS_TOKEN", "tok"); ("SWITCHBOT_SECRET", "sec");
             ("WEATHER_CITY_CODE", "130010") ] initial).
  reflexivity.
Defined.

(** ** Signatures and forecasts *)

Opaque String.append str_of_int.

(** X17: every request [post_command] sends can be verified from its own
    headers: its [sign] header is the Base64 HMAC-SHA256, keyed by SECRET, of
    its [Authorization], [t] and [nonce] headers concatenated in this order,
    and its [t] header is the decimal text of the clock reading. *)
Theorem post_command_signature_verifies (E : env) (C : config)
    (device_id command parameter command_type : string) (s : state) :
  exists (rq : request) (o : outcome) (auth t nonce : string),
    exchanges (snd (post_command E C device_id command parameter command_type s))
    = (exchanges s ++ [(rq, o)])%list /\
    lookup "Authorization" (req_headers rq) = Some auth /\
    lookup "t" (req_headers rq) = Some t /\
    lookup "nonce" (req_headers rq) = Some nonce /\
    lookup "sign" (req_headers rq)
    = Some (b64encode (hmac_sha256 (encode_utf8 (SECRET C))
                                   (encode_utf8 (auth ++ t ++ nonce)))) /\
    auth = ACCESS_TOKEN C /\
    t = str_of_int (now_ms E (clock_reads s)) /\
    nonce = uuid4 E (uuid_draws s).
Proof.
  rewrite post_command_run. cbn [snd exchanges].
  eexists. eexists. eexists. eexists. eexists.
  split; [reflexivity|]. cbn. repeat split.
Qed.

(** X18: only today's forecast counts: two answers whose first forecast is
    the same give the same result, whatever the later forecasts (tomorrow and
    after) and the other fields of the document are. *)
Theorem get_today_rain_percent_max_all_first_forecast
    (E E' : env) (city_code : string) (s : state) (r r' : response)
    (d d' : list (string * json)) (today : json) (later later' : list json) :
  server E (List.length (exchanges s)) (weather_request city_code) = Answered r ->
  server E' (List.length (exchanges s)) (weather_request city_code) = Answered r' ->
  error_status r = false -> error_status r' = false ->
  json_body r = Some (JDict d) -> json_body r' = Some (JDict d') ->
  lookup "forecasts" d = Some (JList (today :: later)) ->
  lookup "forecasts" d' = Some (JList (today :: later')) ->
  fst (get_today_rain_percent_max_all E city_code s)
  = fst (get_today_rain_percent_max_all E' city_code s).
Proof.
  intros Ho Ho' Hs Hs' Hb Hb' Hf Hf'.
  rewrite !get_today_rain_percent_max_all_run, Ho, Ho'.
  unfold fetch, chance_of_rain, getitem_key at 1 3, getitem_0.
  rewrite Hs, Hs', Hb, Hb', Hf, Hf'.
  destruct (getitem_key today "chanceOfRain") as [rain|e]; [|reflexivity].
  destruct (daylight_slots rain) as [[[a b] c]|e]; reflexivity.
Qed.

Lemma get_today_rain_percent_max_all_first_forecast_witness :
  fst (get_today_rain_percent_max_all sample_env "130010" initial)
  = fst (get_today_rain_percent_max_all
           (mk_env (now_ms sample_env) (uuid4 sample_env)
              (fun _ _ =>
                 Answered (mk_response 200
                   (Some (JDict [ ("title", JStr "Tokyo");
                                  ("forecasts",
                                   JList [ JDict [("chanceOfRain",
                                             JDict [("T00_06", JStr "90%");
                                                    ("T06_12", JStr "10%");
                                                    ("T12_18", JStr "30%");
                                                    ("T18_24", JStr "--%")])];
                                           JDict [("chanceOfRain",
                                             JDict [("T06_12", JStr "80%")])] ]) ])))))
           "130010" initial).
Proof.
  eapply (get_today_rain_percent_max_all_first_forecast sample_env _ "130010" initial);
    reflexivity.
Defined.

Lemma skipn_length_app {A : Type} (l l' : list A) :
  skipn (List.length l) (l ++ l') = l'.
Proof. induction l as [|a l IH]; [reflexivity | exact IH]. Qed.

(** X19: no nonce is used twice within a call: if the UUID source never
    repeats, the requests [set_lamp_rgb] and [set_lamp_ct] send carry
    pairwise distinct [nonce] headers. *)
Theorem set_lamp_nonces_distinct (E : env) (C : config) (device_id : string)
    (color : Z * Z * Z) (color_temperature : Z) (brightness : pyobj) (s : state) :
  (forall i j, uuid4 E i = uuid4 E j -> i = j) ->
  let nonces (s' : state) :=
    map (fun x => lookup "nonce" (req_headers (fst x)))
        (skipn (List.length (exchanges s)) (exchanges s')) in
  NoDup (nonces (snd (set_lamp_rgb E C device_id color brightness s))) /\
  NoDup (nonces (snd (set_lamp_ct E C device_id color_temperature brightness s))).
Proof.
  intros Hinj nonces.
  assert (H3 : forall c1 p1 c2 p2 c3 p3,
             NoDup (nonces (snd (three_commands E C device_id
                                   [(c1, p1); (c2, p2); (c3, p3)] s)))).
  { intros c1 p1 c2 p2 c3 p3. subst nonces. cbv beta.
    destruct (three_commands_run E C device_id c1 p1 c2 p2 c3 p3 s) as (Hx & _).
    rewrite Hx, skipn_length_app.
    assert (Hd : forall i j : nat, i <> j ->
                 Some (uuid4 E (i + uuid_draws s)) <> Some (uuid4 E (j + uuid_draws s))).
    { intros i j Hij [= Heq]. apply Hinj in Heq. lia. }
    assert (Hall : NoDup (map (fun x => lookup "nonce" (req_headers (fst x)))
                            (command_exchanges E C device_id s
                               [(c1, p1); (c2, p2); (c3, p3)]))).
    { change (map _ _)
        with [ Some (uuid4 E (0 + uuid_draws s)%nat);
               Some (uuid4 E (1 + uuid_draws s)%nat);
               Some (uuid4 E (2 + uuid_draws s)%nat) ].
      constructor; [|constructor; [|constructor; [|constructor]]]; cbn [In];
        intros H;
        repeat (destruct H as [H|H]; [revert H; apply Hd; lia|]); exact H. }
    generalize (issued (command_exchanges E C device_id s
                          [(c1, p1); (c2, p2); (c3, p3)])).
    intros n. revert Hall.
    generalize (command_exchanges E C device_id s [(c1, p1); (c2, p2); (c3, p3)]).
    intros l. revert n. induction l as [|x l IH]; intros n Hall.
    - destruct n; constructor.
    - destruct n; [constructor|]. cbn [firstn map] in *.
      inversion Hall as [|? ? Hnot Hrest]; subst. constructor; [|now apply IH].
      intros Hin. apply Hnot. clear - Hin. revert n Hin.
      induction l as [|y l IHl]; intros n Hin; [destruct n; contradiction|].
      destruct n; [contradiction|]. cbn [firstn map In] in *.
      destruct Hin as [Hin|Hin]; [now left | right; eapply IHl; eassumption]. }
  split.
  - rewrite set_lamp_rgb_commands. apply H3.
  - rewrite set_lamp_ct_commands. apply H3.
Qed.

Lemma sample_env_uuid_injective (i j : nat) :
  uuid4 sample_env i = uuid4 sample_env j -> i = j.
Proof.
  cbn [uuid4 sample_env]. intros H.
  assert (Hs : str_of_int (Z.of_nat i) = str_of_int (Z.of_nat j)).
  { Transparent String.append. cbn in H. Opaque String.append.
    now injection H. }
  apply (f_equal (fun t => int_of_digits (remove_non_digits t))) in Hs.
  rewrite !int_of_digits_str_of_int in Hs. lia.
Qed.

Lemma set_lamp_nonces_distinct_witness :
  NoDup (map (fun x => lookup "nonce" (req_headers (fst x)))
           (exchanges (snd (set_lamp_rgb sample_env sample_config "DEV1"
                              (127, 255, 0) (PyInt 100) initial)))).
Proof.
  exact (proj1 (set_lamp_nonces_distinct sample_env sample_config "DEV1"
                  (127, 255, 0) 0 (PyInt 100) initial sample_env_uuid_injective)).
Defined.
